(** * The flashcard page script (script.js): session state, views, import
      and persistence, as a state-passing model.

    The script keeps its data in module-level objects ([flashcards],
    [state], the cached [elements]) and in [localStorage].  Every function
    of the script becomes a function on a [World] that holds those objects;
    a function that can throw returns an [outcome], which keeps the world as
    it was when the exception left the function. *)

From Stdlib Require Import ZArith List String Ascii Bool Lia.
Import ListNotations.

Open Scope string_scope.
Open Scope Z_scope.

(** ** JavaScript built-ins used by the script *)

Module Js.

(** A string is held as the bytes of its UTF-8 form, the way a string
    literal of this file is read ([utf8] builds one from the byte values; a
    surrogate on its own counts as the three bytes of its number).  The
    script cuts texts at ASCII characters, compares them with ASCII
    literals and tests them for emptiness, which is the same on the bytes
    as on the characters; [trim] alone looks at characters beyond ASCII. *)
Definition utf8 (bytes : list nat) : string :=
  string_of_list_ascii (map ascii_of_nat bytes).

(** The characters [String.prototype.trim] removes: the WhiteSpace and
    LineTerminator code points of ECMAScript, each as its UTF-8 bytes (the
    no-break space U+00A0 is the two bytes 194 160). *)
Definition whiteSpace : list string := [
  utf8 [9];                 (* U+0009 character tabulation *)
  utf8 [10];                (* U+000A line feed *)
  utf8 [11];                (* U+000B line tabulation *)
  utf8 [12];                (* U+000C form feed *)
  utf8 [13];                (* U+000D carriage return *)
  utf8 [32];                (* U+0020 space *)
  utf8 [194; 160];          (* U+00A0 no-break space *)
  utf8 [225; 154; 128];     (* U+1680 ogham space mark *)
  utf8 [226; 128; 128];     (* U+2000 en quad *)
  utf8 [226; 128; 129];     (* U+2001 em quad *)
  utf8 [226; 128; 130];     (* U+2002 en space *)
  utf8 [226; 128; 131];     (* U+2003 em space *)
  utf8 [226; 128; 132];     (* U+2004 three-per-em space *)
  utf8 [226; 128; 133];     (* U+2005 four-per-em space *)
  utf8 [226; 128; 134];     (* U+2006 six-per-em space *)
  utf8 [226; 128; 135];     (* U+2007 figure space *)
  utf8 [226; 128; 136];     (* U+2008 punctuation space *)
  utf8 [226; 128; 137];     (* U+2009 thin space *)
  utf8 [226; 128; 138];     (* U+200A hair space *)
  utf8 [226; 128; 168];     (* U+2028 line separator *)
  utf8 [226; 128; 169];     (* U+2029 paragraph separator *)
  utf8 [226; 128; 175];     (* U+202F narrow no-break space *)
  utf8 [226; 129; 159];     (* U+205F medium mathematical space *)
  utf8 [227; 128; 128];     (* U+3000 ideographic space *)
  utf8 [239; 187; 191]      (* U+FEFF zero width no-break space *)
]%nat.

(** [s] without its start [p], when it starts with [p]. *)
Fixpoint dropPrefix (p s : string) : option string :=
  match p, s with
  | EmptyString, _ => Some s
  | String a p', String b s' => if Ascii.eqb a b then dropPrefix p' s' else None
  | String _ _, EmptyString => None
  end.

Fixpoint firstAfter (ps : list string) (s : string) : option string :=
  match ps with
  | [] => None
  | p :: rest =>
      match dropPrefix p s with
      | Some r => Some r
      | None => firstAfter rest s
      end
  end.

(** What follows the white space character [s] starts with, if it starts
    with one. *)
Definition afterSpace (s : string) : option string := firstAfter whiteSpace s.

(** [s.trimStart()]: white space characters are taken off the start as
    long as there is one.  Every step takes at least one byte, so the
    length of [s] is fuel enough. *)
Fixpoint trimStartN (fuel : nat) (s : string) : string :=
  match fuel with
  | O => s
  | S n =>
      match afterSpace s with
      | Some r => trimStartN n r
      | None => s
      end
  end.

Definition trimStart (s : string) : string := trimStartN (String.length s) s.

(** Truthiness of a string: the empty string is falsy. *)
Definition truthy (s : string) : bool :=
  match s with EmptyString => false | _ => true end.

(** [s] holds white space characters only. *)
Definition allSpace (s : string) : bool := negb (truthy (trimStart s)).

(** [s.trimEnd()]: the longest end of white space only is cut off.  (An
    end that starts inside a character is never of white space only: no
    byte from 128 to 191 starts a character.) *)
Fixpoint trimEnd (s : string) : string :=
  match s with
  | EmptyString => EmptyString
  | String c r => if allSpace s then EmptyString else String c (trimEnd r)
  end.

Definition trim (s : string) : string := trimEnd (trimStart s).

(** [s.split(/[...]/)] for a character class: one piece more than there
    are separator characters. *)
Fixpoint split (sep : ascii -> bool) (s : string) : list string :=
  match s with
  | EmptyString => [EmptyString]
  | String c r =>
      if sep c then EmptyString :: split sep r
      else match split sep r with
           | p :: ps => String c p :: ps
           | [] => [String c EmptyString]
           end
  end.

(** [s.split(/[...]+/)]: a run of separator characters separates once.
    [inRun] tells that the previous character was a separator. *)
Fixpoint splitRuns (sep : ascii -> bool) (inRun : bool) (s : string)
  : list string :=
  match s with
  | EmptyString => [EmptyString]
  | String c r =>
      if sep c then
        if inRun then splitRuns sep true r
        else EmptyString :: splitRuns sep true r
      else match splitRuns sep false r with
           | p :: ps => String c p :: ps
           | [] => [String c EmptyString]
           end
  end.

(** [array[i]] for a number [i] that is an integer: [undefined] (here
    [None]) outside [0 .. length-1]. *)
Definition index {A} (l : list A) (i : Z) : option A :=
  if i <? 0 then None else nth_error l (Z.to_nat i).


(** A [Set] of numbers keeps insertion order and has no duplicates. *)
Definition has (s : list Z) (x : Z) : bool := existsb (Z.eqb x) s.

Definition add (s : list Z) (x : Z) : list Z :=
  if has s x then s else s ++ [x].

Definition delete (s : list Z) (x : Z) : list Z :=
  filter (fun y => negb (Z.eqb x y)) s.

(** [new Set(iterable)] *)
Definition newSet (l : list Z) : list Z := fold_left add l [].

(** [DOMTokenList]: the class list of an element. *)
Definition classContains (cl : list string) (t : string) : bool :=
  existsb (String.eqb t) cl.

Definition classRemove (cl : list string) (ts : list string) : list string :=
  filter (fun c => negb (classContains ts c)) cl.

Definition classAdd (cl : list string) (t : string) : list string :=
  if classContains cl t then cl else cl ++ [t].

(** ASCII whitespace of the DOM standard: a token containing it is
    refused by [classList.add]. *)
Definition isTokenSpace (c : ascii) : bool :=
  let n := nat_of_ascii c in
  (n =? 9)%nat || (n =? 10)%nat || (n =? 12)%nat || (n =? 13)%nat
  || (n =? 32)%nat.

Fixpoint hasTokenSpace (s : string) : bool :=
  match s with
  | EmptyString => false
  | String c r => isTokenSpace c || hasTokenSpace r
  end.

(** Some character of [s] satisfies [p]. *)
Fixpoint any (p : ascii -> bool) (s : string) : bool :=
  match s with
  | EmptyString => false
  | String c r => p c || any p r
  end.

(** The text of [s] before its first character in [sep]. *)
Fixpoint upTo (sep : ascii -> bool) (s : string) : string :=
  match s with
  | EmptyString => EmptyString
  | String c r => if sep c then EmptyString else String c (upTo sep r)
  end.

(** [list.forEach((x, index) => ...)] building one output per element. *)
Fixpoint mapi_from {A B} (f : Z -> A -> B) (i : Z) (l : list A) : list B :=
  match l with
  | [] => []
  | x :: r => f i x :: mapi_from f (i + 1) r
  end.

Definition mapi {A B} (f : Z -> A -> B) (l : list A) : list B :=
  mapi_from f 0 l.

End Js.

(** ** Data *)

Record Card := mkCard { term : string; definition : string }.

(** The [state] object. *)
Record State := mkState {
  currentIndex : Z;
  isFlipped : bool;
  starredCards : list Z;
  designVariant : string
}.

(** The sample data the script starts with. *)
Definition sampleFlashcards : list Card := [
  mkCard "Component" "A reusable piece of UI that encapsulates its own structure, style, and behavior";
  mkCard "Design Token" "Named entities that store visual design attributes like colors, typography, and spacing";
  mkCard "Typography" "The art and technique of arranging type to make written language legible and appealing";
  mkCard "Color System" "A structured set of colors used consistently throughout a design system";
  mkCard "Spacing Scale" "A defined set of spacing values used for margins, padding, and gaps";
  mkCard "Grid System" "A structure of horizontal and vertical lines used to arrange content";
  mkCard "Breakpoint" "Specific viewport widths where the layout changes for responsive design";
  mkCard "Accessibility" "The practice of making products usable by people with various abilities"
].

Definition initialState : State :=
  mkState 0 false [] "option-a".

(** ** The page

    The markup of the page is not part of the script: the script looks
    every element up and tolerates its absence ([?.], [if (!container)
    return]).  An element the page lacks is [None]; an element the page has
    carries the part of it that the script reads, or writes as its own
    (the class [active] of the [.term-item] elements, which depends on what
    else the document holds, is left out; see [updateActiveTocItem]). *)

(** [#flashcard]: its [flipped] class and its [style.animation]. *)
Record FlashcardEl := mkFlashcardEl { fc_flipped : bool; fc_animation : string }.

(** [#star-btn]: its [starred] class, and the [filled] class of the icon
    inside it when there is one. *)
Record StarBtnEl := mkStarBtnEl { sb_starred : bool; sb_icon : option bool }.

(** A [.variant-btn]: its [data-variant] and its [active] class. *)
Record VariantBtn := mkVariantBtn { vb_variant : string; vb_active : bool }.

(** A list entry as a renderer builds it.  The renderers set the
    [innerHTML] of an entry to a template with the texts of the card put in
    as they are, and the browser reads the result as markup.  The entry
    holds what the script supplies: [row_index], the [index] of the
    [forEach] callback (the value of [data-index], and the index the click
    listener of the entry closed over), and the two texts put into the
    template ([row_term], [row_definition]; the journey list puts in no
    definition, its entries hold the empty string there).  What the browser
    makes of the markup is not followed: for a text without markup of its
    own the entry shows the text and its elements nest as in the template;
    a text with tags or attributes of its own can close or open elements of
    the template and bring elements, classes and handlers of its own. *)
Record Row := mkRow {
  row_index : Z;
  row_term : string;
  row_definition : string
}.

Record Dom := mkDom {
  cardFront : option string;              (* #card-front, textContent *)
  cardBack : option string;               (* #card-back, textContent *)
  flashcard : option FlashcardEl;         (* #flashcard *)
  starBtn : option StarBtnEl;             (* #star-btn *)
  bodyClasses : list string;              (* document.body.classList *)
  variantSelector : option (list VariantBtn);   (* #variant-selector *)
  topicsContainer : option (list Row);    (* .topics-container: its .term-item entries *)
  panelTermsList : option (list Row);     (* #panel-terms-list *)
  panelSetTitle : option string;          (* #panel-set-title *)
  journeyContainer : option (list Row);   (* #journey-topics-container *)
  tableTermsList : option (list Row);     (* #table-terms-list *)
  importModalOverlay : option bool;       (* its active class *)
  debugModalOverlay : option bool;        (* its active class *)
  importTitleInput : option string;       (* #import-title, value *)
  importTextarea : option string;         (* #import-textarea, value *)
  listenersAttached : bool                (* attachEventListeners has run *)
}.

(** ** localStorage

    The script uses three keys.  ['designVariant'] holds the variant as
    plain text.  ['flashcardState'] and ['flashcardContent'] hold JSON text,
    modelled by what [JSON.parse] makes of it. *)

(** The text under ['flashcardState'], by what [loadSavedState] gets out
    of it.  [Unparsable] is text on which [JSON.parse] throws, or which it
    turns into [null], so that reading [data.currentIndex] throws.
    [SavedState ci stars] is text that [JSON.parse] turns into a value whose
    [currentIndex] is the number [ci], or is missing or falsy ([None]), and
    whose [starredCards] is the array of the numbers [stars], or is missing
    or falsy ([None]); what [saveState] writes is of this kind.
    [SavedPartial ci] is text with such a [currentIndex] whose
    [starredCards] is truthy and cannot be iterated (a number, [true], an
    object without iterator): the index is taken, then [new Set] throws.

    The numbers are safe integers ([Js.isSafeInteger]): a Number holds
    them exactly, so [JSON.parse] reads them as they are written, and what
    the script computes with them is exact.  A snapshot with a longer
    integer (which [JSON.parse] rounds), with a fraction, with a text or an
    array in the place of a number, or with texts among the stars has no
    counterpart here; the script itself writes none. *)
Inductive SavedItem :=
  | Unparsable
  | SavedState (ci : option Z) (stars : option (list Z))
  | SavedPartial (ci : option Z).

(** The object [saveContent] serialises. *)
Record ContentSnapshot := mkContent {
  cs_title : string;
  cs_flashcards : list Card;
  cs_savedAt : string
}.

Record Storage := mkStorage {
  item_designVariant : option string;
  item_flashcardState : option SavedItem;
  item_flashcardContent : option ContentSnapshot
}.

Definition emptyStorage : Storage := mkStorage None None None.

(** ** Effects outside the page and the storage *)

Inductive Effect :=
  | Alert (msg : string)            (* alert(msg), blocking *)
  | ConsoleError (msg : string)     (* console.error *)
  | SetItem (key : string)          (* localStorage.setItem(key, ...) *)
  | PreventDefault.                 (* event.preventDefault() *)

(** ** The world *)

Record World := mkWorld {
  flashcards : list Card;
  state : State;
  dom : Dom;
  localStorage : Storage;
  effects : list Effect
}.

Inductive Exn := TypeError | SyntaxError | InvalidCharacterError.

(** What a call leaves behind: the world, and the exception if one escaped. *)
Inductive outcome :=
  | Done (w : World)
  | Threw (e : Exn) (w : World).

Definition worldOf (o : outcome) : World :=
  match o with Done w => w | Threw _ w => w end.

Definition andThen (o : outcome) (k : World -> outcome) : outcome :=
  match o with
  | Done w => k w
  | Threw e w => Threw e w
  end.

Notation "o >>= k" := (andThen o k) (at level 50, left associativity).

(** ** Field updates *)

Definition withFlashcards (cs : list Card) (w : World) : World :=
  mkWorld cs (state w) (dom w) (localStorage w) (effects w).

Definition withState (s : State) (w : World) : World :=
  mkWorld (flashcards w) s (dom w) (localStorage w) (effects w).

Definition withDom (d : Dom) (w : World) : World :=
  mkWorld (flashcards w) (state w) d (localStorage w) (effects w).

Definition withStorage (st : Storage) (w : World) : World :=
  mkWorld (flashcards w) (state w) (dom w) st (effects w).

Definition emit (e : Effect) (w : World) : World :=
  mkWorld (flashcards w) (state w) (dom w) (localStorage w) (effects w ++ [e]).

Definition setCurrentIndex (i : Z) (w : World) : World :=
  let s := state w in
  withState (mkState i (isFlipped s) (starredCards s) (designVariant s)) w.

Definition setIsFlipped (b : bool) (w : World) : World :=
  let s := state w in
  withState (mkState (currentIndex s) b (starredCards s) (designVariant s)) w.

Definition setStarredCards (l : list Z) (w : World) : World :=
  let s := state w in
  withState (mkState (currentIndex s) (isFlipped s) l (designVariant s)) w.

Definition setDesignVariantField (v : string) (w : World) : World :=
  let s := state w in
  withState (mkState (currentIndex s) (isFlipped s) (starredCards s) v) w.

Section DomUpdates.
Variable d : Dom.

Definition domCardTexts (f b : option string) : Dom :=
  mkDom f b (flashcard d) (starBtn d) (bodyClasses d) (variantSelector d)
    (topicsContainer d) (panelTermsList d) (panelSetTitle d)
    (journeyContainer d) (tableTermsList d) (importModalOverlay d)
    (debugModalOverlay d) (importTitleInput d) (importTextarea d)
    (listenersAttached d).

Definition domFlashcard (x : option FlashcardEl) : Dom :=
  mkDom (cardFront d) (cardBack d) x (starBtn d) (bodyClasses d)
    (variantSelector d) (topicsContainer d) (panelTermsList d)
    (panelSetTitle d) (journeyContainer d) (tableTermsList d)
    (importModalOverlay d) (debugModalOverlay d) (importTitleInput d)
    (importTextarea d) (listenersAttached d).

Definition domStarBtn (x : option StarBtnEl) : Dom :=
  mkDom (cardFront d) (cardBack d) (flashcard d) x (bodyClasses d)
    (variantSelector d) (topicsContainer d) (panelTermsList d)
    (panelSetTitle d) (journeyContainer d) (tableTermsList d)
    (importModalOverlay d) (debugModalOverlay d) (importTitleInput d)
    (importTextarea d) (listenersAttached d).

Definition domBody (cl : list string) (vs : option (list VariantBtn)) : Dom :=
  mkDom (cardFront d) (cardBack d) (flashcard d) (starBtn d) cl vs
    (topicsContainer d) (panelTermsList d) (panelSetTitle d)
    (journeyContainer d) (tableTermsList d) (importModalOverlay d)
    (debugModalOverlay d) (importTitleInput d) (importTextarea d)
    (listenersAttached d).

Definition domTopics (x : option (list Row)) : Dom :=
  mkDom (cardFront d) (cardBack d) (flashcard d) (starBtn d) (bodyClasses d)
    (variantSelector d) x (panelTermsList d) (panelSetTitle d)
    (journeyContainer d) (tableTermsList d) (importModalOverlay d)
    (debugModalOverlay d) (importTitleInput d) (importTextarea d)
    (listenersAttached d).

Definition domPanel (x : option (list Row)) (t : option string) : Dom :=
  mkDom (cardFront d) (cardBack d) (flashcard d) (starBtn d) (bodyClasses d)
    (variantSelector d) (topicsContainer d) x t
    (journeyContainer d) (tableTermsList d) (importModalOverlay d)
    (debugModalOverlay d) (importTitleInput d) (importTextarea d)
    (listenersAttached d).

Definition domJourney (x : option (list Row)) : Dom :=
  mkDom (cardFront d) (cardBack d) (flashcard d) (starBtn d) (bodyClasses d)
    (variantSelector d) (topicsContainer d) (panelTermsList d)
    (panelSetTitle d) x (tableTermsList d) (importModalOverlay d)
    (debugModalOverlay d) (importTitleInput d) (importTextarea d)
    (listenersAttached d).

Definition domTable (x : option (list Row)) : Dom :=
  mkDom (cardFront d) (cardBack d) (flashcard d) (starBtn d) (bodyClasses d)
    (variantSelector d) (topicsContainer d) (panelTermsList d)
    (panelSetTitle d) (journeyContainer d) x (importModalOverlay d)
    (debugModalOverlay d) (importTitleInput d) (importTextarea d)
    (listenersAttached d).

Definition domModals (imp dbg : option bool) : Dom :=
  mkDom (cardFront d) (cardBack d) (flashcard d) (starBtn d) (bodyClasses d)
    (variantSelector d) (topicsContainer d) (panelTermsList d)
    (panelSetTitle d) (journeyContainer d) (tableTermsList d) imp dbg
    (importTitleInput d) (importTextarea d) (listenersAttached d).

Definition domImportFields (title text : option string) : Dom :=
  mkDom (cardFront d) (cardBack d) (flashcard d) (starBtn d) (bodyClasses d)
    (variantSelector d) (topicsContainer d) (panelTermsList d)
    (panelSetTitle d) (journeyContainer d) (tableTermsList d)
    (importModalOverlay d) (debugModalOverlay d) title text
    (listenersAttached d).

Definition domListeners (b : bool) : Dom :=
  mkDom (cardFront d) (cardBack d) (flashcard d) (starBtn d) (bodyClasses d)
    (variantSelector d) (topicsContainer d) (panelTermsList d)
    (panelSetTitle d) (journeyContainer d) (tableTermsList d)
    (importModalOverlay d) (debugModalOverlay d) (importTitleInput d)
    (importTextarea d) b.
End DomUpdates.

(** ** Core functions *)

(** [updateStarButton] *)
Definition updateStarButton (w : World) : World :=
  match starBtn (dom w) with
  | None => w
  | Some b =>
      let on := Js.has (starredCards (state w)) (currentIndex (state w)) in
      withDom (domStarBtn (dom w)
                 (Some (mkStarBtnEl on (option_map (fun _ => on) (sb_icon b))))) w
  end.

(** [animateCardChange] *)
Definition animateCardChange (w : World) : World :=
  match flashcard (dom w) with
  | None => w
  | Some f =>
      withDom (domFlashcard (dom w)
                 (Some (mkFlashcardEl (fc_flipped f) "cardEnter 0.2s ease-out"))) w
  end.

(** [updateActiveTocItem] puts the class [active] on the [.term-item] of
    the document whose position among all of them is [state.currentIndex],
    and takes it off the others.  Which elements these are is up to the
    markup of the page and to the markup the texts of the cards bring into
    the lists.  The script never reads the class, and the world keeps no
    record of it: the call changes nothing here. *)
Definition updateActiveTocItem (autoExpand : bool) (w : World) : World := w.

(** [updateCard].  [card] is [undefined] when [state.currentIndex] is not an
    index of [flashcards]; reading [card.term] then throws a [TypeError]. *)
Definition updateCard (autoExpand : bool) (w : World) : outcome :=
  let card := Js.index (flashcards w) (currentIndex (state w)) in
  match cardFront (dom w), cardBack (dom w) with
  | Some _, Some _ =>
      match card with
      | None => Threw TypeError w
      | Some c =>
          let w1 := withDom (domCardTexts (dom w) (Some (term c))
                               (Some (definition c))) w in
          let w2 := updateStarButton w1 in
          let w3 :=
            if isFlipped (state w2) then
              setIsFlipped false
                (withDom (domFlashcard (dom w2)
                            (option_map (fun f => mkFlashcardEl false (fc_animation f))
                               (flashcard (dom w2)))) w2)
            else w2 in
          Done (updateActiveTocItem autoExpand (animateCardChange w3))
      end
  | _, _ => Done w
  end.

(** [prevCard] *)
Definition prevCard (w : World) : outcome :=
  let ci := currentIndex (state w) in
  let w1 :=
    if ci >? 0 then setCurrentIndex (ci - 1) w
    else setCurrentIndex (Z.of_nat (List.length (flashcards w)) - 1) w in
  updateCard true w1.

(** [nextCard] *)
Definition nextCard (w : World) : outcome :=
  let ci := currentIndex (state w) in
  let w1 :=
    if ci <? Z.of_nat (List.length (flashcards w)) - 1 then setCurrentIndex (ci + 1) w
    else setCurrentIndex 0 w in
  updateCard true w1.

(** [flipCard] *)
Definition flipCard (w : World) : World :=
  let w1 :=
    withDom (domFlashcard (dom w)
               (option_map (fun f => mkFlashcardEl (negb (fc_flipped f)) (fc_animation f))
                  (flashcard (dom w)))) w in
  setIsFlipped (negb (isFlipped (state w1))) w1.

(** [saveState]: writes [{ currentIndex, starredCards }] under
    ['flashcardState']. *)
Definition saveState (w : World) : World :=
  let snap := SavedState (Some (currentIndex (state w)))
                         (Some (starredCards (state w))) in
  let st := localStorage w in
  emit (SetItem "flashcardState")
    (withStorage (mkStorage (item_designVariant st) (Some snap)
                    (item_flashcardContent st)) w).

(** [toggleStar]: always the current card. *)
Definition toggleStar (w : World) : World :=
  let index := currentIndex (state w) in
  let w1 :=
    if Js.has (starredCards (state w)) index
    then setStarredCards (Js.delete (starredCards (state w)) index) w
    else setStarredCards (Js.add (starredCards (state w)) index) w in
  saveState (updateStarButton w1).

(** A [keydown] event: the tag name of its target and its key. *)
Record KeyEvent := mkKeyEvent { target_tagName : string; key : string }.

(** [handleKeydown] *)
Definition handleKeydown (event : KeyEvent) (w : World) : outcome :=
  if (target_tagName event =? "INPUT")%string
     || (target_tagName event =? "TEXTAREA")%string
  then Done w
  else if (key event =? "ArrowLeft")%string then prevCard w
  else if (key event =? "ArrowRight")%string then nextCard w
  else if (key event =? " ")%string || (key event =? "Enter")%string
       then Done (flipCard (emit PreventDefault w))
  else Done w.

(** ** Views

    The four lists are built with [innerHTML]: the texts of the cards go
    into markup that the browser reads.  The functions below follow the
    script: which entries it makes, from which card, with which listener.
    They hold for every text as far as the script's own steps go; what a
    text with markup of its own makes the browser do besides is outside
    this development. *)

(** The entries a [forEach] over the cards makes, one for each card, in
    order. *)
Definition renderRows (showDefinition : bool) (cards : list Card) : list Row :=
  Js.mapi (fun i c =>
             mkRow i (term c) (if showDefinition then definition c else ""))
          cards.

(** [updateTopicsList]: the container is emptied and refilled. *)
Definition updateTopicsList (cards : list Card) (w : World) : World :=
  match topicsContainer (dom w) with
  | None => w
  | Some _ => withDom (domTopics (dom w) (Some (renderRows true cards))) w
  end.

(** [updatePanelTermsList] *)
Definition updatePanelTermsList (w : World) : World :=
  match panelTermsList (dom w) with
  | None => w
  | Some _ =>
      withDom (domPanel (dom w) (Some (renderRows true (flashcards w)))
                 (panelSetTitle (dom w))) w
  end.

(** [updatePanelTitle] *)
Definition updatePanelTitle (w : World) : World :=
  withDom (domPanel (dom w) (panelTermsList (dom w))
             (option_map (fun _ => "Design System Components") (panelSetTitle (dom w)))) w.

(** [updateJourneyView] *)
Definition updateJourneyView (w : World) : World :=
  match journeyContainer (dom w) with
  | None => w
  | Some _ => withDom (domJourney (dom w) (Some (renderRows false (flashcards w)))) w
  end.

(** [initTableView] *)
Definition initTableView (w : World) : World :=
  match tableTermsList (dom w) with
  | None => w
  | Some _ => withDom (domTable (dom w) (Some (renderRows true (flashcards w)))) w
  end.

(** ** Design variants *)

Definition knownVariants : list string :=
  ["option-a"; "option-b"; "option-c"; "option-d"; "option-e"].

(** [setDesignVariant].  [classList.add] refuses the empty token with a
    [SyntaxError] and a token with whitespace with an
    [InvalidCharacterError]; the five classes are removed by then. *)
Definition setDesignVariant (variant : string) (w : World) : outcome :=
  let cl := Js.classRemove (bodyClasses (dom w)) knownVariants in
  let w1 := withDom (domBody (dom w) cl (variantSelector (dom w))) w in
  if negb (Js.truthy variant) then Threw SyntaxError w1
  else if Js.hasTokenSpace variant then Threw InvalidCharacterError w1
  else
    let w2 := withDom (domBody (dom w1) (Js.classAdd cl variant)
                         (variantSelector (dom w1))) w1 in
    let w3 := setDesignVariantField variant w2 in
    let btns :=
      option_map
        (map (fun b => mkVariantBtn (vb_variant b) (vb_variant b =? variant)%string))
        (variantSelector (dom w3)) in
    let w4 := withDom (domBody (dom w3) (bodyClasses (dom w3)) btns) w3 in
    let st := localStorage w4 in
    let w5 :=
      emit (SetItem "designVariant")
        (withStorage (mkStorage (Some variant) (item_flashcardState st)
                        (item_flashcardContent st)) w4) in
    if (variant =? "option-b")%string || (variant =? "option-e")%string
    then Done (updatePanelTitle (updatePanelTermsList w5))
    else if (variant =? "option-c")%string then Done (updateJourneyView w5)
    else if (variant =? "option-d")%string then Done (initTableView w5)
    else Done w5.

(** [loadDesignVariant] *)
Definition loadDesignVariant (w : World) : outcome :=
  let savedVariant :=
    match item_designVariant (localStorage w) with
    | Some v => if Js.truthy v then v else "option-a"
    | None => "option-a"
    end in
  setDesignVariant savedVariant w.

(** ** Modals *)

Definition openDebugModal (w : World) : World :=
  withDom (domModals (dom w) (importModalOverlay (dom w))
             (option_map (fun _ => true) (debugModalOverlay (dom w)))) w.

Definition closeDebugModal (w : World) : World :=
  withDom (domModals (dom w) (importModalOverlay (dom w))
             (option_map (fun _ => false) (debugModalOverlay (dom w)))) w.

Definition openImportModal (w : World) : World :=
  withDom (domModals (dom w) (option_map (fun _ => true) (importModalOverlay (dom w)))
             (debugModalOverlay (dom w))) w.

Definition closeImportModal (w : World) : World :=
  withDom (domModals (dom w) (option_map (fun _ => false) (importModalOverlay (dom w)))
             (debugModalOverlay (dom w))) w.

(** ** Import *)

(** The class [[\n;]] of the line separator and [[\t,]] of the field
    separator. *)
Definition isLineSep (c : ascii) : bool :=
  (nat_of_ascii c =? 10)%nat || (nat_of_ascii c =? 59)%nat.

Definition isFieldSep (c : ascii) : bool :=
  (nat_of_ascii c =? 9)%nat || (nat_of_ascii c =? 44)%nat.

(** [text.split(/[\n;]+/).filter(line => line.trim())] *)
Definition importLines (text : string) : list string :=
  filter (fun line => Js.truthy (Js.trim line)) (Js.splitRuns isLineSep false text).

(** [line.split(/[\t,]/).map(p => p.trim())] *)
Definition lineParts (line : string) : list string :=
  map Js.trim (Js.split isFieldSep line).

(** The body of [lines.forEach]: what one line pushes onto [newCards]. *)
Definition lineCards (line : string) : list Card :=
  match lineParts line with
  | p0 :: p1 :: _ => [mkCard p0 p1]
  | _ => []
  end.

Definition parseCards (text : string) : list Card :=
  flat_map lineCards (importLines text).

(** [saveContent]; [savedAt] is the time of the call. *)
Definition saveContent (title : string) (cards : list Card) (savedAt : string)
    (w : World) : World :=
  let st := localStorage w in
  emit (SetItem "flashcardContent")
    (withStorage (mkStorage (item_designVariant st) (item_flashcardState st)
                    (Some (mkContent title cards savedAt))) w).

(** [elements.importTitleInput?.value || 'Untitled Set'] *)
Definition importTitle (w : World) : string :=
  match importTitleInput (dom w) with
  | Some v => if Js.truthy v then v else "Untitled Set"
  | None => "Untitled Set"
  end.

(** [elements.importTextarea?.value || ''] *)
Definition importText (w : World) : string :=
  match importTextarea (dom w) with
  | Some v => v
  | None => ""
  end.

(** [importFlashcards]; [now] is what [new Date().toISOString()] returns
    when the import is saved. *)
Definition importFlashcards (now : string) (w : World) : outcome :=
  let title := importTitle w in
  let text := importText w in
  if negb (Js.truthy (Js.trim text)) then
    Done (emit (Alert "Please enter some flashcard content") w)
  else
    let newCards := parseCards text in
    if (0 <? List.length newCards)%nat then
      let w1 := setCurrentIndex 0 (withFlashcards newCards w) in
      updateCard false w1 >>= fun w2 =>
      let w3 := updateTopicsList (flashcards w2) w2 in
      let w4 :=
        if Js.classContains (bodyClasses (dom w3)) "option-b"
           || Js.classContains (bodyClasses (dom w3)) "option-e"
        then updatePanelTermsList w3 else w3 in
      let w5 :=
        if Js.classContains (bodyClasses (dom w4)) "option-c"
        then updateJourneyView w4 else w4 in
      let w6 :=
        if Js.classContains (bodyClasses (dom w5)) "option-d"
        then initTableView w5 else w5 in
      Done (closeImportModal (saveContent title (flashcards w6) now w6))
    else Done w.

(** ** Persistence *)

(** [loadSavedState].  An exception inside [try] is logged and dropped. *)
Definition loadSavedState (w : World) : World :=
  match item_flashcardState (localStorage w) with
  | None => w
  | Some Unparsable => emit (ConsoleError "Error loading saved state:") w
  | Some (SavedState ci stars) =>
      let i := match ci with
               | Some z => if z =? 0 then 0 else z     (* data.currentIndex || 0 *)
               | None => 0
               end in
      let l := match stars with Some l => l | None => [] end in
      setStarredCards (Js.newSet l) (setCurrentIndex i w)
  | Some (SavedPartial ci) =>
      let i := match ci with
               | Some z => if z =? 0 then 0 else z
               | None => 0
               end in
      emit (ConsoleError "Error loading saved state:") (setCurrentIndex i w)
  end.

(** ** Start *)

(** [attachEventListeners] *)
Definition attachEventListeners (w : World) : World :=
  withDom (domListeners (dom w) true) w.

(** [init].  [initPanelResize] only registers mouse listeners that touch
    nothing of the world. *)
Definition init (w : World) : outcome :=
  loadDesignVariant w >>= fun w1 =>
  updateCard false (loadSavedState w1) >>= fun w2 =>
  Done (updateTopicsList (flashcards w2) (attachEventListeners w2)).

(** Loading the page [page] (its markup) with the storage [st]: the script
    creates its objects, and [DOMContentLoaded] runs [init]. *)
Definition loadPage (page : Dom) (st : Storage) : World :=
  mkWorld sampleFlashcards initialState page st [].

Definition startup (page : Dom) (st : Storage) : outcome :=
  init (loadPage page st).

(** ** Events

    The click listeners that [attachEventListeners] and the renderers
    register.  A list entry is named by its position in the rendered list.
    A click bubbles from its target through the elements the renderer put
    around it; the markup above the rendered lists and around the buttons
    is not part of the script and is taken to carry no click listener. *)

Inductive ClickTarget :=
  | OnPrevBtn | OnNextBtn | OnFlashcard | OnStarBtn
  | OnMenuBtn | OnDebugClose | OnDebugOverlay
  | OnImportClose | OnImportOverlay
  | OnImportSubmit (now : string)      (* the import button, clicked at [now] *)
  | OnVariantBtn (k : nat)
  | OnTermItem (k : nat)               (* .term-item *)
  | OnPanelItem (k : nat)              (* .panel-term-item *)
  | OnPanelContent (k : nat)           (* .panel-term-content *)
  | OnPanelStar (k : nat)              (* .panel-term-star *)
  | OnJourneyItem (k : nat)            (* .journey-term-item *)
  | OnTableRow (k : nat)               (* .table-term-row *)
  | OnTableCheckbox (k : nat)          (* .table-checkbox *)
  | OnTableContent (k : nat)           (* .table-term-content *)
  | OnTableStar (k : nat).             (* .table-term-star *)

(** The listener the renderers give an entry:
    [() => { state.currentIndex = index; updateCard(); }] *)
Definition itemClick (index : Z) (w : World) : outcome :=
  updateCard true (setCurrentIndex index w).

Definition rowAt (rows : option (list Row)) (k : nat) : option Row :=
  match rows with
  | Some l => nth_error l k
  | None => None
  end.

(** The target and, after it, the elements around it inside the rendered
    list, as the templates nest them: content and star of a panel entry are
    children of the entry, the three parts of a table row children of the
    row.  (The browser nests them so for texts without markup of their
    own.) *)
Definition bubblePath (t : ClickTarget) : list ClickTarget :=
  match t with
  | OnPanelContent k | OnPanelStar k => [t; OnPanelItem k]
  | OnTableCheckbox k | OnTableContent k | OnTableStar k => [t; OnTableRow k]
  | _ => [t]
  end.

(** A click listener: whether it calls [event.stopPropagation()], and what
    it does. *)
Definition Listener : Type := bool * (World -> outcome).

(** The listeners of [attachEventListeners]; an element the page lacks has
    none.  The overlays close on a click on the overlay itself. *)
Definition attachedListener (n : ClickTarget) (w : World) : option Listener :=
  match n with
  | OnPrevBtn => Some (false, prevCard)
  | OnNextBtn => Some (false, nextCard)
  | OnFlashcard =>
      option_map (fun _ => (false, fun w => Done (flipCard w))) (flashcard (dom w))
  | OnStarBtn =>
      option_map (fun _ => (true, fun w => Done (toggleStar w))) (starBtn (dom w))
  | OnMenuBtn => Some (false, fun w => Done (openDebugModal w))
  | OnDebugClose | OnDebugOverlay => Some (false, fun w => Done (closeDebugModal w))
  | OnImportClose | OnImportOverlay => Some (false, fun w => Done (closeImportModal w))
  | OnImportSubmit now => Some (false, importFlashcards now)
  | OnVariantBtn k =>
      match variantSelector (dom w) with
      | Some btns =>
          option_map (fun b => (false, setDesignVariant (vb_variant b)))
                     (nth_error btns k)
      | None => None
      end
  | _ => None
  end.

(** The click listener of an element, if it has one.  The renderers give
    one to a [.term-item], to the content of a panel entry and to a journey
    entry; the panel entry itself, its star, and a table row with all its
    parts get none. *)
Definition listenerOf (n : ClickTarget) (w : World) : option Listener :=
  match n with
  | OnTermItem k =>
      option_map (fun r => (false, itemClick (row_index r)))
                 (rowAt (topicsContainer (dom w)) k)
  | OnPanelContent k =>
      option_map (fun r => (false, itemClick (row_index r)))
                 (rowAt (panelTermsList (dom w)) k)
  | OnJourneyItem k =>
      option_map (fun r => (false, itemClick (row_index r)))
                 (rowAt (journeyContainer (dom w)) k)
  | OnPanelItem _ | OnPanelStar _
  | OnTableRow _ | OnTableCheckbox _ | OnTableContent _ | OnTableStar _ => None
  | _ => if listenersAttached (dom w) then attachedListener n w else None
  end.

(** The click goes up the path and runs the listener of each element,
    unless a listener stopped the propagation.  An exception in a listener
    is reported and does not stop the others; the first one is kept. *)
Fixpoint bubble (path : list ClickTarget) (w : World) : outcome :=
  match path with
  | [] => Done w
  | n :: rest =>
      match listenerOf n w with
      | None => bubble rest w
      | Some (stop, h) =>
          match h w with
          | Done w1 => if stop then Done w1 else bubble rest w1
          | Threw e w1 => Threw e (if stop then w1 else worldOf (bubble rest w1))
          end
      end
  end.

Definition click (t : ClickTarget) (w : World) : outcome :=
  bubble (bubblePath t) w.

(** The second [keydown] listener of the document: Escape closes a modal. *)
Definition escapeListener (event : KeyEvent) (w : World) : World :=
  if (key event =? "Escape")%string then
    match debugModalOverlay (dom w), importModalOverlay (dom w) with
    | Some true, _ => closeDebugModal w
    | _, Some true => closeImportModal w
    | _, _ => w
    end
  else w.

(** A key press: both listeners run, the second also when the first threw. *)
Definition keydown (event : KeyEvent) (w : World) : outcome :=
  if listenersAttached (dom w) then
    match handleKeydown event w with
    | Done w1 => Done (escapeListener event w1)
    | Threw e w1 => Threw e (escapeListener event w1)
    end
  else Done w.

(** The user edits the two fields of the import form. *)
Definition typeImport (title text : string) (w : World) : World :=
  withDom (domImportFields (dom w)
             (option_map (fun _ => title) (importTitleInput (dom w)))
             (option_map (fun _ => text) (importTextarea (dom w)))) w.

(** What can happen to a loaded page. *)
Inductive Action :=
  | Click (t : ClickTarget)
  | KeyDown (event : KeyEvent)
  | TypeImport (title text : string).

Definition step (a : Action) (w : World) : outcome :=
  match a with
  | Click t => click t w
  | KeyDown ev => keydown ev w
  | TypeImport title text => Done (typeImport title text w)
  end.

(** A sequence of actions; an exception ends the handler it escapes from,
    not the page, so the next action runs on the world it left. *)
Fixpoint run (acts : list Action) (w : World) : World :=
  match acts with
  | [] => w
  | a :: rest => run rest (worldOf (step a w))
  end.

(** A page with every element the script looks up, nothing rendered yet. *)
Definition samplePage : Dom :=
  mkDom (Some "") (Some "") (Some (mkFlashcardEl false ""))
    (Some (mkStarBtnEl false (Some false))) []
    (Some (map (fun v => mkVariantBtn v false) knownVariants))
    (Some []) (Some []) (Some "") (Some []) (Some [])
    (Some false) (Some false) (Some "") (Some "") false.

(** ** Predicates and scenarios of the statements *)

(** The part of the world outside the page. *)
Definition sameData (w w' : World) : Prop :=
  flashcards w' = flashcards w /\ localStorage w' = localStorage w
  /\ effects w' = effects w.

(** The session fields other than the flip flag. *)
Definition sameSession (w w' : World) : Prop :=
  currentIndex (state w') = currentIndex (state w)
  /\ starredCards (state w') = starredCards (state w)
  /\ designVariant (state w') = designVariant (state w).

Definition inRange (w : World) : Prop :=
  0 <= currentIndex (state w) < Z.of_nat (List.length (flashcards w)).

(** [op] called [k] times in a row, as long as no call throws. *)
Fixpoint times (k : nat) (op : World -> outcome) (w : World) : outcome :=
  match k with
  | O => Done w
  | S k' => op w >>= times k' op
  end.

(** The snapshot under ['flashcardState'] is the one of the session as it
    is now. *)
Definition sessionSaved (w : World) : Prop :=
  item_flashcardState (localStorage w)
  = Some (SavedState (Some (currentIndex (state w)))
                     (Some (starredCards (state w)))).

(** The world a freshly loaded sample page with an empty storage starts in. *)
Definition startWorld : World := worldOf (startup samplePage emptyStorage).

(** What the specification calls [toggleStar(index)], kept apart from the
    script's [toggleStar] for comparison: the star of the card [index] is
    put or removed, and the session is saved. *)
Definition specToggleStar (index : Z) (w : World) : World :=
  let w1 :=
    if Js.has (starredCards (state w)) index
    then setStarredCards (Js.delete (starredCards (state w)) index) w
    else setStarredCards (Js.add (starredCards (state w)) index) w in
  saveState (updateStarButton w1).

(** The start world after the panel variant was chosen. *)
Definition panelWorld : World :=
  worldOf (setDesignVariant "option-b" startWorld).

Definition isContentWrite (e : Effect) : bool :=
  match e with
  | SetItem k => (k =? "flashcardContent")%string
  | _ => false
  end.

(** How often ['flashcardContent'] was written so far. *)
Definition contentWrites (l : list Effect) : nat :=
  List.length (filter isContentWrite l).


(** Neither a write of the content snapshot nor a change of it. *)
Definition keepsContent (w w' : World) : Prop :=
  contentWrites (effects w') = contentWrites (effects w)
  /\ item_flashcardContent (localStorage w')
     = item_flashcardContent (localStorage w).

(** Only the page differs. *)
Definition onlyDom (w w' : World) : Prop :=
  flashcards w' = flashcards w /\ state w' = state w
  /\ localStorage w' = localStorage w /\ effects w' = effects w.

(** A session of the user on the start world: import nine cards, go to the
    last one with eight clicks on "next", star it. *)
Definition nineCardSession : list Action :=
  [TypeImport "Nine" "a,1;b,2;c,3;d,4;e,5;f,6;g,7;h,8;i,9";
   Click (OnImportSubmit "2024-01-01T00:00:00.000Z")]
  ++ repeat (Click OnNextBtn) 8 ++ [Click OnStarBtn].

(** A text of white space only: a sequence of characters that [trim]
    removes (the empty text included). *)
Inductive whiteSpaceOnly : string -> Prop :=
  | wso_empty : whiteSpaceOnly ""
  | wso_more (p r : string) :
      In p Js.whiteSpace -> whiteSpaceOnly r -> whiteSpaceOnly (p ++ r).

(** A space, a no-break space, a tab and a line separator (U+2028). *)
Definition mixedSpace : string :=
  Js.utf8 [32]%nat ++ Js.utf8 [194; 160]%nat ++ Js.utf8 [9]%nat
  ++ Js.utf8 [226; 128; 168]%nat.

(** The sample page without the two faces of the card. *)
Definition pageWithoutFaces : Dom := domCardTexts samplePage None None.




(** ** Further predicates: what the page shows, what the lists hold *)

(** Same members, whatever the order. *)
Definition sameStars (s s' : list Z) : Prop :=
  forall x, Js.has s' x = Js.has s x.

(** The body carries the class [c]. *)
Definition bodyHas (w : World) (c : string) : bool :=
  Js.classContains (bodyClasses (dom w)) c.

(** The indices the click listeners of a rendered list closed over. *)
Definition rowIndices (rows : option (list Row)) : list Z :=
  match rows with
  | Some l => map row_index l
  | None => []
  end.

(** Every entry of the list points at one of [n] cards. *)
Definition rowsInRange (rows : option (list Row)) (n : nat) : Prop :=
  Forall (fun i => 0 <= i < Z.of_nat n) (rowIndices rows).





(** What a function leaves of the lists: the cards, the classes of the
    body, and the indices of the entries. *)
Definition listsKept (w w' : World) : Prop :=
  flashcards w' = flashcards w
  /\ bodyClasses (dom w') = bodyClasses (dom w)
  /\ rowIndices (topicsContainer (dom w')) = rowIndices (topicsContainer (dom w))
  /\ rowIndices (panelTermsList (dom w')) = rowIndices (panelTermsList (dom w))
  /\ rowIndices (journeyContainer (dom w')) = rowIndices (journeyContainer (dom w)).




(** The card carries the class [flipped] exactly when [state.isFlipped]. *)
Definition flipShown (w : World) : Prop :=
  forall f, flashcard (dom w) = Some f -> fc_flipped f = isFlipped (state w).


(** What a function leaves of the card view and of what it shows. *)
Definition viewKept (w w' : World) : Prop :=
  flashcards w' = flashcards w
  /\ currentIndex (state w') = currentIndex (state w)
  /\ starredCards (state w') = starredCards (state w)
  /\ isFlipped (state w') = isFlipped (state w)
  /\ cardFront (dom w') = cardFront (dom w)
  /\ cardBack (dom w') = cardBack (dom w)
  /\ starBtn (dom w') = starBtn (dom w)
  /\ flashcard (dom w') = flashcard (dom w).

(** The three items of the storage, one by one. *)
Definition sameVariantItem (w w' : World) : Prop :=
  item_designVariant (localStorage w') = item_designVariant (localStorage w).

Definition sameSessionItem (w w' : World) : Prop :=
  item_flashcardState (localStorage w') = item_flashcardState (localStorage w).

Definition sameContentItem (w w' : World) : Prop :=
  item_flashcardContent (localStorage w') = item_flashcardContent (localStorage w).

(** * Properties *)

(** ** Frames: what the functions leave alone *)

Ltac break_match :=
  match goal with
  | |- context [match ?x with _ => _ end] =>
      let E := fresh "E" in destruct x eqn:E
  end.

Ltac crush := repeat (simpl in *; try break_match); simpl in *; auto.

Lemma index_in_range {A} (l : list A) (i : Z) :
  0 <= i < Z.of_nat (List.length l) -> exists x, Js.index l i = Some x.
Proof.
  intros [Hlo Hhi]. unfold Js.index.
  destruct (i <? 0) eqn:E; [apply Z.ltb_lt in E; lia|].
  destruct (nth_error l (Z.to_nat i)) eqn:N; [eauto|].
  apply nth_error_None in N. lia.
Qed.

Lemma updateCard_frame (b : bool) (w : World) :
  sameData w (worldOf (updateCard b w))
  /\ sameSession w (worldOf (updateCard b w)).
Proof.
  unfold sameData, sameSession, updateCard, updateActiveTocItem,
    animateCardChange, updateStarButton.
  crush.
Qed.

Lemma updateCard_done (b : bool) (w : World) :
  inRange w -> exists w', updateCard b w = Done w'.
Proof.
  intros H. destruct (index_in_range (flashcards w) _ H) as [c Hc].
  unfold updateCard. rewrite Hc.
  destruct (cardFront (dom w)), (cardBack (dom w)); eauto.
Qed.

(** With both faces of the card on the page, a card shown is shown
    unflipped. *)
Lemma updateCard_unflips (b : bool) (w w' : World) :
  cardFront (dom w) <> None -> cardBack (dom w) <> None ->
  updateCard b w = Done w' -> isFlipped (state w') = false.
Proof.
  unfold updateCard, updateActiveTocItem, animateCardChange, updateStarButton.
  intros Hf Hb.
  destruct (cardFront (dom w)); [|congruence].
  destruct (cardBack (dom w)); [|congruence].
  destruct (Js.index _ _); [|discriminate].
  intros H. injection H as <-. crush.
Qed.

Lemma setCurrentIndex_flashcards (i : Z) (w : World) :
  flashcards (setCurrentIndex i w) = flashcards w.
Proof. reflexivity. Qed.

Lemma setCurrentIndex_index (i : Z) (w : World) :
  currentIndex (state (setCurrentIndex i w)) = i.
Proof. reflexivity. Qed.

(** ** Navigation *)

(** One [nextCard] from an index in range: no exception, the cards stay,
    the index moves one to the right modulo the number of cards. *)
Lemma nextCard_step (w : World) :
  inRange w ->
  exists w', nextCard w = Done w'
    /\ flashcards w' = flashcards w
    /\ currentIndex (state w') =
         (currentIndex (state w) + 1) mod Z.of_nat (List.length (flashcards w)).
Proof.
  intros H. unfold nextCard.
  set (n := Z.of_nat (List.length (flashcards w))) in *.
  set (ci := currentIndex (state w)) in *.
  assert (Hr : inRange (if ci <? n - 1 then setCurrentIndex (ci + 1) w
                        else setCurrentIndex 0 w)
               /\ currentIndex (state (if ci <? n - 1 then setCurrentIndex (ci + 1) w
                                       else setCurrentIndex 0 w)) = (ci + 1) mod n
               /\ flashcards (if ci <? n - 1 then setCurrentIndex (ci + 1) w
                              else setCurrentIndex 0 w) = flashcards w).
  { unfold inRange in *. fold n in H. fold ci in H.
    destruct (ci <? n - 1) eqn:E;
      rewrite setCurrentIndex_index, setCurrentIndex_flashcards; fold n.
    - apply Z.ltb_lt in E. rewrite Z.mod_small by lia. repeat split; lia.
    - apply Z.ltb_ge in E. replace (ci + 1) with n by lia.
      rewrite Z.mod_same by lia. repeat split; lia. }
  destruct Hr as (Hin & Hci & Hfc).
  destruct (updateCard_done true _ Hin) as [w' Hw'].
  exists w'. split; [exact Hw'|].
  destruct (updateCard_frame true
              (if ci <? n - 1 then setCurrentIndex (ci + 1) w
               else setCurrentIndex 0 w)) as [(F1 & _) (S1 & _)].
  rewrite Hw' in F1, S1. simpl in F1, S1.
  rewrite F1, S1. auto.
Qed.

(** One [prevCard] from an index in range. *)
Lemma prevCard_step (w : World) :
  inRange w ->
  exists w', prevCard w = Done w'
    /\ flashcards w' = flashcards w
    /\ currentIndex (state w') =
         (currentIndex (state w) - 1) mod Z.of_nat (List.length (flashcards w)).
Proof.
  intros H. unfold prevCard.
  set (n := Z.of_nat (List.length (flashcards w))) in *.
  set (ci := currentIndex (state w)) in *.
  assert (Hr : inRange (if ci >? 0 then setCurrentIndex (ci - 1) w
                        else setCurrentIndex (n - 1) w)
               /\ currentIndex (state (if ci >? 0 then setCurrentIndex (ci - 1) w
                                       else setCurrentIndex (n - 1) w)) = (ci - 1) mod n
               /\ flashcards (if ci >? 0 then setCurrentIndex (ci - 1) w
                              else setCurrentIndex (n - 1) w) = flashcards w).
  { unfold inRange in *. fold n in H. fold ci in H.
    destruct (ci >? 0) eqn:E;
      rewrite setCurrentIndex_index, setCurrentIndex_flashcards; fold n.
    - apply Z.gtb_lt in E. rewrite Z.mod_small by lia. repeat split; lia.
    - assert (ci = 0) by (rewrite Z.gtb_ltb in E; apply Z.ltb_ge in E; lia).
      replace (ci - 1) with (n - 1 + (-1) * n) by lia.
      rewrite Z.mod_add by lia. rewrite Z.mod_small by lia.
      repeat split; lia. }
  destruct Hr as (Hin & Hci & Hfc).
  destruct (updateCard_done true _ Hin) as [w' Hw'].
  exists w'. split; [exact Hw'|].
  destruct (updateCard_frame true
              (if ci >? 0 then setCurrentIndex (ci - 1) w
               else setCurrentIndex (n - 1) w)) as [(F1 & _) (S1 & _)].
  rewrite Hw' in F1, S1. simpl in F1, S1.
  rewrite F1, S1. auto.
Qed.

Lemma nextCard_times (k : nat) : forall w,
  inRange w ->
  exists w', times k nextCard w = Done w'
    /\ flashcards w' = flashcards w
    /\ currentIndex (state w') =
         (currentIndex (state w) + Z.of_nat k) mod Z.of_nat (List.length (flashcards w)).
Proof.
  induction k as [|k IH]; intros w H.
  - exists w. simpl. rewrite Z.add_0_r, Z.mod_small by exact H. auto.
  - destruct (nextCard_step w H) as (w1 & E1 & F1 & C1).
    assert (H1 : inRange w1).
    { unfold inRange. rewrite F1, C1. apply Z.mod_pos_bound. unfold inRange in H. lia. }
    destruct (IH w1 H1) as (w2 & E2 & F2 & C2).
    exists w2. cbn [times]. rewrite E1. cbn [andThen].
    split; [exact E2|]. split; [congruence|].
    rewrite C2, F1, C1, Z.add_mod_idemp_l by (unfold inRange in H; lia).
    f_equal. lia.
Qed.

Lemma prevCard_times (k : nat) : forall w,
  inRange w ->
  exists w', times k prevCard w = Done w'
    /\ flashcards w' = flashcards w
    /\ currentIndex (state w') =
         (currentIndex (state w) - Z.of_nat k) mod Z.of_nat (List.length (flashcards w)).
Proof.
  induction k as [|k IH]; intros w H.
  - exists w. simpl. rewrite Z.sub_0_r, Z.mod_small by exact H. auto.
  - destruct (prevCard_step w H) as (w1 & E1 & F1 & C1).
    assert (H1 : inRange w1).
    { unfold inRange. rewrite F1, C1. apply Z.mod_pos_bound. unfold inRange in H. lia. }
    destruct (IH w1 H1) as (w2 & E2 & F2 & C2).
    exists w2. cbn [times]. rewrite E1. cbn [andThen].
    split; [exact E2|]. split; [congruence|].
    rewrite C2, F1, C1, Zminus_mod_idemp_l.
    f_equal. lia.
Qed.

(** C7: in a store of [n >= 1] cards, from any index in range, [n] calls
    of [nextCard] run without exception and bring [currentIndex] back to
    where it was, and so do [n] calls of [prevCard]. *)
Theorem next_prev_cycle (w : World) :
  flashcards w <> [] ->
  inRange w ->
  let n := List.length (flashcards w) in
  (exists w', times n nextCard w = Done w'
              /\ currentIndex (state w') = currentIndex (state w))
  /\ (exists w', times n prevCard w = Done w'
                 /\ currentIndex (state w') = currentIndex (state w)).
Proof.
  intros _ H n. split.
  - destruct (nextCard_times n w H) as (w' & E & _ & C).
    exists w'. split; [exact E|]. rewrite C. fold n.
    unfold inRange in H. fold n in H.
    replace (currentIndex (state w) + Z.of_nat n)
      with (currentIndex (state w) + 1 * Z.of_nat n) by lia.
    rewrite Z.mod_add by lia. apply Z.mod_small; exact H.
  - destruct (prevCard_times n w H) as (w' & E & _ & C).
    exists w'. split; [exact E|]. rewrite C. fold n.
    unfold inRange in H. fold n in H.
    replace (currentIndex (state w) - Z.of_nat n)
      with (currentIndex (state w) + (-1) * Z.of_nat n) by lia.
    rewrite Z.mod_add by lia. apply Z.mod_small; exact H.
Qed.

Lemma next_prev_cycle_witness :
  let w := setCurrentIndex 3 (loadPage samplePage emptyStorage) in
  flashcards w <> [] /\ inRange w
  /\ (exists w', times 8 nextCard w = Done w'
                 /\ currentIndex (state w') = 3)
  /\ (exists w', times 8 prevCard w = Done w'
                 /\ currentIndex (state w') = 3).
Proof.
  intros w.
  assert (Hne : flashcards w <> []) by discriminate.
  assert (Hin : inRange w) by (unfold inRange; simpl; lia).
  split; [exact Hne|]. split; [exact Hin|].
  exact (next_prev_cycle w Hne Hin).
Defined.

(** ** Flip *)

Lemma flipCard_twice (w : World) : flipCard (flipCard w) = w.
Proof.
  destruct w as [cs [ci fl st dv] d ls ef].
  destruct d as [cf cb [[f a]|] sb bc vs tc pl pt jc tl im dm it ia la];
    unfold flipCard; simpl; rewrite !negb_involutive; reflexivity.
Qed.

Lemma itemClick_step (i : Z) (w : World) :
  0 <= i < Z.of_nat (List.length (flashcards w)) ->
  exists w', itemClick i w = Done w'
    /\ flashcards w' = flashcards w /\ currentIndex (state w') = i.
Proof.
  intros H. unfold itemClick.
  assert (Hin : inRange (setCurrentIndex i w)) by exact H.
  destruct (updateCard_done true _ Hin) as [w' Hw'].
  exists w'. split; [exact Hw'|].
  destruct (updateCard_frame true (setCurrentIndex i w)) as [(F1 & _) (S1 & _)].
  rewrite Hw' in F1, S1. simpl in F1, S1. auto.
Qed.

(** C8, as the code has it: [flipCard] negates [isFlipped], two calls in
    a row give the world back as it was, and a call changes neither the
    other fields of the session, nor the cards, the storage or the effects.
    On a page that has both faces of the card, every navigation from an
    index in range ([nextCard], [prevCard], the click listener of a list
    entry with an index in range) ends without exception with
    [isFlipped = false], whatever it was before.  On a page that lacks one
    of the faces, every navigation leaves [isFlipped] as it was. *)
Theorem flip_involution_navigation_unflips (w : World) :
  (flipCard (flipCard w) = w
   /\ isFlipped (state (flipCard w)) = negb (isFlipped (state w))
   /\ sameSession w (flipCard w) /\ sameData w (flipCard w))
  /\ (cardFront (dom w) <> None -> cardBack (dom w) <> None -> inRange w ->
      (exists w', nextCard w = Done w' /\ isFlipped (state w') = false)
      /\ (exists w', prevCard w = Done w' /\ isFlipped (state w') = false)
      /\ (forall i, 0 <= i < Z.of_nat (List.length (flashcards w)) ->
          exists w', itemClick i w = Done w' /\ isFlipped (state w') = false))
  /\ (cardFront (dom w) = None \/ cardBack (dom w) = None ->
      (exists w', nextCard w = Done w' /\ isFlipped (state w') = isFlipped (state w))
      /\ (exists w', prevCard w = Done w' /\ isFlipped (state w') = isFlipped (state w))
      /\ (forall i, exists w', itemClick i w = Done w'
                      /\ isFlipped (state w') = isFlipped (state w))).
Proof.
  split; [|split].
  - split; [apply flipCard_twice|].
    unfold sameSession, sameData, flipCard; simpl; auto.
  - intros Hf Hb Hin. repeat split.
    + destruct (nextCard_step w Hin) as (w' & E & _).
      exists w'. split; [exact E|].
      unfold nextCard in E.
      eapply updateCard_unflips; [| |exact E];
        destruct (_ <? _); simpl; assumption.
    + destruct (prevCard_step w Hin) as (w' & E & _).
      exists w'. split; [exact E|].
      unfold prevCard in E.
      eapply updateCard_unflips; [| |exact E];
        destruct (_ >? _); simpl; assumption.
    + intros i Hi. destruct (itemClick_step i w Hi) as (w' & E & _).
      exists w'. split; [exact E|].
      unfold itemClick in E.
      eapply updateCard_unflips; [| |exact E]; simpl; assumption.
  - intros Hn.
    assert (U : forall b i, updateCard b (setCurrentIndex i w)
                            = Done (setCurrentIndex i w)).
    { intros b i. unfold updateCard. cbn [setCurrentIndex withState dom].
      destruct Hn as [-> | ->]; [reflexivity|].
      destruct (cardFront (dom w)); reflexivity. }
    split; [|split].
    + unfold nextCard. destruct (_ <? _); rewrite U; eexists; split; reflexivity.
    + unfold prevCard. destruct (_ >? _); rewrite U; eexists; split; reflexivity.
    + intros i. unfold itemClick. rewrite U. eexists; split; reflexivity.
Qed.

Lemma flip_involution_navigation_unflips_witness :
  let w := flipCard (setCurrentIndex 7 (loadPage samplePage emptyStorage)) in
  let v := flipCard (loadPage pageWithoutFaces emptyStorage) in
  isFlipped (state w) = true
  /\ cardFront (dom w) <> None /\ cardBack (dom w) <> None /\ inRange w
  /\ (exists w', nextCard w = Done w' /\ isFlipped (state w') = false)
  /\ (exists w', prevCard w = Done w' /\ isFlipped (state w') = false)
  /\ (forall i, 0 <= i < Z.of_nat (List.length (flashcards w)) ->
      exists w', itemClick i w = Done w' /\ isFlipped (state w') = false)
  /\ isFlipped (state v) = true
  /\ (cardFront (dom v) = None \/ cardBack (dom v) = None)
  /\ (exists w', nextCard v = Done w' /\ isFlipped (state w') = isFlipped (state v))
  /\ (exists w', prevCard v = Done w' /\ isFlipped (state w') = isFlipped (state v))
  /\ (forall i, exists w', itemClick i v = Done w'
                  /\ isFlipped (state w') = isFlipped (state v)).
Proof.
  intros w v.
  assert (Hf : cardFront (dom w) <> None) by discriminate.
  assert (Hb : cardBack (dom w) <> None) by discriminate.
  assert (Hin : inRange w) by (unfold inRange; simpl; lia).
  assert (Hn : cardFront (dom v) = None \/ cardBack (dom v) = None)
    by (left; reflexivity).
  split; [reflexivity|]. split; [exact Hf|]. split; [exact Hb|].
  split; [exact Hin|].
  destruct (proj1 (proj2 (flip_involution_navigation_unflips w)) Hf Hb Hin)
    as (N & P & I).
  split; [exact N|]. split; [exact P|]. split; [exact I|].
  split; [reflexivity|]. split; [exact Hn|].
  exact (proj2 (proj2 (flip_involution_navigation_unflips v)) Hn).
Defined.

(** C8 fails on a page without the faces of the card: [updateCard] returns
    at its first test, before it resets the flip.  After the page has
    started, the space key flips the card and the right arrow moves to the
    next card, which leaves [isFlipped = true] on card 1; the same with a
    click on "next", on "previous" and on an entry of the list. *)
Lemma navigation_without_faces_stays_flipped :
  exists w0, startup pageWithoutFaces emptyStorage = Done w0
    /\ isFlipped (state w0) = false /\ currentIndex (state w0) = 0
    /\ (let w := run [KeyDown (mkKeyEvent "BODY" " ");
                      KeyDown (mkKeyEvent "BODY" "ArrowRight")] w0 in
        isFlipped (state w) = true /\ currentIndex (state w) = 1)
    /\ (let w := worldOf (nextCard (flipCard w0)) in
        isFlipped (state w) = true /\ currentIndex (state w) = 1)
    /\ (let w := worldOf (prevCard (flipCard w0)) in
        isFlipped (state w) = true /\ currentIndex (state w) = 7)
    /\ (let w := worldOf (click (OnTermItem 2) (flipCard w0)) in
        isFlipped (state w) = true /\ currentIndex (state w) = 2).
Proof.
  eexists. split; [vm_compute; reflexivity|].
  repeat split; vm_compute; reflexivity.
Qed.

(** ** Keyboard *)

(** C10: a key press whose target is an INPUT or a TEXTAREA leaves
    [handleKeydown] without any change to the world: the arrows do not
    navigate, Space and Enter do not flip.  With the Escape listener that
    runs after it, the session, the cards, the storage and the effects are
    still as before. *)
Theorem keydown_in_form_field (event : KeyEvent) (w : World) :
  target_tagName event = "INPUT" \/ target_tagName event = "TEXTAREA" ->
  handleKeydown event w = Done w
  /\ state (worldOf (keydown event w)) = state w
  /\ sameData w (worldOf (keydown event w)).
Proof.
  intros H.
  assert (E : handleKeydown event w = Done w).
  { unfold handleKeydown. destruct H as [-> | ->]; reflexivity. }
  split; [exact E|].
  unfold keydown, sameData. rewrite E.
  unfold escapeListener, closeDebugModal, closeImportModal.
  crush.
Qed.

Lemma keydown_in_form_field_witness :
  let w := flipCard (loadPage samplePage emptyStorage) in
  let event := mkKeyEvent "TEXTAREA" "ArrowRight" in
  (target_tagName event = "INPUT" \/ target_tagName event = "TEXTAREA")
  /\ handleKeydown event w = Done w
  /\ state (worldOf (keydown event w)) = state w
  /\ sameData w (worldOf (keydown event w)).
Proof.
  intros w event.
  assert (H : target_tagName event = "INPUT" \/ target_tagName event = "TEXTAREA")
    by (right; reflexivity).
  split; [exact H|].
  exact (keydown_in_form_field event w H).
Defined.

(** ** Persistence of the session *)

(** [nextCard], [prevCard] and the click listener of a list entry write
    nothing: the storage and the effects are as before the call. *)
Lemma navigation_writes_nothing (w : World) :
  (localStorage (worldOf (nextCard w)) = localStorage w
   /\ effects (worldOf (nextCard w)) = effects w)
  /\ (localStorage (worldOf (prevCard w)) = localStorage w
      /\ effects (worldOf (prevCard w)) = effects w)
  /\ (forall i, localStorage (worldOf (itemClick i w)) = localStorage w
                /\ effects (worldOf (itemClick i w)) = effects w).
Proof.
  split; [|split].
  - unfold nextCard.
    match goal with |- context [updateCard true ?x] =>
      destruct (updateCard_frame true x) as [(_ & L & E) _];
      rewrite L, E; destruct (_ <? _); auto end.
  - unfold prevCard.
    match goal with |- context [updateCard true ?x] =>
      destruct (updateCard_frame true x) as [(_ & L & E) _];
      rewrite L, E; destruct (_ >? _); auto end.
  - intros i. unfold itemClick.
    destruct (updateCard_frame true (setCurrentIndex i w)) as [(_ & L & E) _].
    rewrite L, E. auto.
Qed.

(** C2, as far as the code goes: [toggleStar] ends with a write of the
    snapshot [{ currentIndex, starredCards }] of the session under
    ['flashcardState'], the only write it makes, and the stored snapshot is
    the one of the session after the toggle. *)
Theorem toggleStar_saves_session (w : World) :
  sessionSaved (toggleStar w)
  /\ effects (toggleStar w) = (effects w ++ [SetItem "flashcardState"])%list
  /\ currentIndex (state (toggleStar w)) = currentIndex (state w).
Proof.
  unfold sessionSaved, toggleStar, saveState, updateStarButton. crush.
Qed.

(** C2 fails for navigation: after [nextCard], after [prevCard] and after
    a click on the third entry of the list, each on the start world, the
    index has moved, nothing was written, and no session snapshot is in the
    storage. *)
Lemma navigation_writes_no_snapshot :
  (exists w', nextCard startWorld = Done w'
     /\ currentIndex (state w') = 1
     /\ effects w' = effects startWorld
     /\ item_flashcardState (localStorage w') = None
     /\ ~ sessionSaved w')
  /\ (exists w', prevCard startWorld = Done w'
     /\ currentIndex (state w') = 7
     /\ effects w' = effects startWorld
     /\ item_flashcardState (localStorage w') = None
     /\ ~ sessionSaved w')
  /\ (exists w', click (OnTermItem 2) startWorld = Done w'
     /\ currentIndex (state w') = 2
     /\ effects w' = effects startWorld
     /\ item_flashcardState (localStorage w') = None
     /\ ~ sessionSaved w').
Proof.
  repeat split;
    (eexists; split; [vm_compute; reflexivity|];
     repeat split; try reflexivity;
     unfold sessionSaved; simpl; discriminate).
Qed.

(** ** Design variants *)

Lemma classContains_classAdd (cl : list string) (t : string) :
  Js.classContains (Js.classAdd cl t) t = true.
Proof.
  unfold Js.classAdd. destruct (Js.classContains cl t) eqn:E; [exact E|].
  unfold Js.classContains. rewrite existsb_app. simpl.
  rewrite String.eqb_refl. apply orb_true_iff. right. reflexivity.
Qed.

Lemma classContains_In (cl : list string) (t : string) :
  Js.classContains cl t = true <-> In t cl.
Proof.
  unfold Js.classContains. rewrite existsb_exists. split.
  - intros (x & Hx & E). apply String.eqb_eq in E. subst. exact Hx.
  - intros H. exists t. split; [exact H|apply String.eqb_refl].
Qed.

Lemma classRemove_clears (cl ks : list string) (v k : string) :
  In k ks -> k <> v ->
  Js.classContains (Js.classAdd (Js.classRemove cl ks) v) k = false.
Proof.
  intros Hk Hne.
  destruct (Js.classContains _ k) eqn:E; [|reflexivity].
  apply classContains_In in E. unfold Js.classAdd in E.
  assert (Hin : In k (Js.classRemove cl ks) -> False).
  { unfold Js.classRemove. rewrite filter_In. intros [_ H].
    apply negb_true_iff in H.
    assert (Js.classContains ks k = true) by (apply classContains_In; exact Hk).
    congruence. }
  destruct (Js.classContains (Js.classRemove cl ks) v).
  - contradiction.
  - apply in_app_or in E. destruct E as [E | [E | []]]; [contradiction|].
    congruence.
Qed.

Lemma truthy_nonempty (s : string) : s <> "" -> Js.truthy s = true.
Proof. destruct s; [congruence|reflexivity]. Qed.

Lemma eqb_not_in (v k : string) (ks : list string) :
  ~ In v ks -> In k ks -> (v =? k)%string = false.
Proof.
  intros Hn Hk. apply String.eqb_neq. intros ->. contradiction.
Qed.

Lemma classRemove_keeps (cl ks : list string) (c : string) :
  In c cl -> ~ In c ks -> In c (Js.classRemove cl ks).
Proof.
  intros Hc Hk. unfold Js.classRemove. apply filter_In. split; [exact Hc|].
  apply negb_true_iff. destruct (Js.classContains ks c) eqn:E; [|reflexivity].
  apply classContains_In in E. contradiction.
Qed.

Lemma classAdd_keeps (cl : list string) (t c : string) :
  In c cl -> In c (Js.classAdd cl t).
Proof.
  intros H. unfold Js.classAdd. destruct (Js.classContains cl t); [exact H|].
  apply in_or_app. left. exact H.
Qed.

(** C3, as the code has it: [setDesignVariant] does not check its
    argument.  A value outside the five variants (and usable as a class
    name: not empty, no whitespace) becomes the active variant: the five
    known classes are taken off the body and the value is added to its
    classes, [state.designVariant] holds it, and it is written under
    ['designVariant']; no list is rendered and the rest of the session and
    the cards are as before.  The classes of the body are exactly those it
    had, without the five, and the value: a class that is none of the five,
    such as the value of an earlier call, stays on the body. *)
Theorem setDesignVariant_unknown (variant : string) (w : World) :
  ~ In variant knownVariants ->
  variant <> "" ->
  Js.hasTokenSpace variant = false ->
  exists w', setDesignVariant variant w = Done w'
    /\ designVariant (state w') = variant
    /\ Js.classContains (bodyClasses (dom w')) variant = true
    /\ (forall k, In k knownVariants ->
          Js.classContains (bodyClasses (dom w')) k = false)
    /\ bodyClasses (dom w')
       = Js.classAdd (Js.classRemove (bodyClasses (dom w)) knownVariants) variant
    /\ (forall c, In c (bodyClasses (dom w)) -> ~ In c knownVariants ->
          In c (bodyClasses (dom w')))
    /\ item_designVariant (localStorage w') = Some variant
    /\ effects w' = (effects w ++ [SetItem "designVariant"])%list
    /\ flashcards w' = flashcards w
    /\ currentIndex (state w') = currentIndex (state w)
    /\ starredCards (state w') = starredCards (state w)
    /\ panelTermsList (dom w') = panelTermsList (dom w)
    /\ journeyContainer (dom w') = journeyContainer (dom w)
    /\ tableTermsList (dom w') = tableTermsList (dom w).
Proof.
  intros Hn Hne Hsp. unfold setDesignVariant.
  rewrite (truthy_nonempty _ Hne), Hsp. cbn [negb].
  rewrite (eqb_not_in variant "option-b" knownVariants Hn) by (simpl; tauto).
  rewrite (eqb_not_in variant "option-e" knownVariants Hn) by (simpl; tauto).
  rewrite (eqb_not_in variant "option-c" knownVariants Hn) by (simpl; tauto).
  rewrite (eqb_not_in variant "option-d" knownVariants Hn) by (simpl; tauto).
  cbn [orb]. eexists. split; [reflexivity|].
  cbn -[Js.classContains Js.classAdd Js.classRemove knownVariants].
  split; [reflexivity|]. split; [apply classContains_classAdd|].
  split.
  { intros k Hk. apply classRemove_clears; [exact Hk|].
    intros ->. contradiction. }
  split; [reflexivity|].
  split; [intros c Hc Hk; apply classAdd_keeps, classRemove_keeps; assumption|].
  repeat split.
Qed.

Lemma setDesignVariant_unknown_witness :
  ~ In "bogus" knownVariants /\ "bogus" <> "" /\ Js.hasTokenSpace "bogus" = false
  /\ exists w', setDesignVariant "bogus" startWorld = Done w'
    /\ designVariant (state w') = "bogus"
    /\ Js.classContains (bodyClasses (dom w')) "bogus" = true
    /\ (forall k, In k knownVariants ->
          Js.classContains (bodyClasses (dom w')) k = false)
    /\ bodyClasses (dom w')
       = Js.classAdd (Js.classRemove (bodyClasses (dom startWorld)) knownVariants)
           "bogus"
    /\ (forall c, In c (bodyClasses (dom startWorld)) -> ~ In c knownVariants ->
          In c (bodyClasses (dom w')))
    /\ item_designVariant (localStorage w') = Some "bogus"
    /\ effects w' = (effects startWorld ++ [SetItem "designVariant"])%list
    /\ flashcards w' = flashcards startWorld
    /\ currentIndex (state w') = currentIndex (state startWorld)
    /\ starredCards (state w') = starredCards (state startWorld)
    /\ panelTermsList (dom w') = panelTermsList (dom startWorld)
    /\ journeyContainer (dom w') = journeyContainer (dom startWorld)
    /\ tableTermsList (dom w') = tableTermsList (dom startWorld).
Proof.
  assert (Hn : ~ In "bogus" knownVariants).
  { simpl. intros [H|[H|[H|[H|[H|[]]]]]]; discriminate H. }
  assert (Hne : "bogus" <> "") by discriminate.
  assert (Hsp : Js.hasTokenSpace "bogus" = false) by reflexivity.
  split; [exact Hn|]. split; [exact Hne|]. split; [exact Hsp|].
  exact (setDesignVariant_unknown "bogus" startWorld Hn Hne Hsp).
Defined.

(** C3 fails: on the start world, where [option-a] is active, the value
    [bogus], none of the five variants under either naming, replaces the
    active variant on the body and in the session, and is persisted.  A
    second such value, [other], is added to the first one on the body. *)
Lemma unknown_variant_is_applied :
  ~ In "bogus" ["default"; "panel"; "journey"; "table"; "panel-alt"]
  /\ ~ In "bogus" knownVariants
  /\ bodyClasses (dom startWorld) = ["option-a"]
  /\ designVariant (state startWorld) = "option-a"
  /\ exists w', setDesignVariant "bogus" startWorld = Done w'
       /\ bodyClasses (dom w') = ["bogus"]
       /\ designVariant (state w') = "bogus"
       /\ item_designVariant (localStorage w') = Some "bogus"
       /\ effects w' = (effects startWorld ++ [SetItem "designVariant"])%list
       /\ exists w'', setDesignVariant "other" w' = Done w''
            /\ bodyClasses (dom w'') = ["bogus"; "other"]
            /\ designVariant (state w'') = "other".
Proof.
  split; [simpl; intros [H|[H|[H|[H|[H|[]]]]]]; discriminate H|].
  split; [simpl; intros [H|[H|[H|[H|[H|[]]]]]]; discriminate H|].
  split; [reflexivity|]. split; [reflexivity|].
  eexists. split; [vm_compute; reflexivity|].
  do 4 (split; [reflexivity|]).
  eexists. split; [vm_compute; reflexivity|].
  split; reflexivity.
Qed.

(** ** Import: the text *)

Lemma append_assoc (a b c : string) : ((a ++ b) ++ c = a ++ (b ++ c))%string.
Proof. induction a as [|x a IH]; simpl; [reflexivity|]. rewrite IH. reflexivity. Qed.

Lemma append_nil_r (a : string) : (a ++ "" = a)%string.
Proof. induction a as [|x a IH]; simpl; [reflexivity|]. rewrite IH. reflexivity. Qed.

Lemma length_append (a b : string) :
  String.length (a ++ b) = (String.length a + String.length b)%nat.
Proof. induction a as [|x a IH]; simpl; [reflexivity|]. rewrite IH. reflexivity. Qed.

Lemma dropPrefix_sound (p s r : string) :
  Js.dropPrefix p s = Some r -> s = (p ++ r)%string.
Proof.
  revert s. induction p as [|a p IH]; intros s; simpl.
  - intros [= ->]. reflexivity.
  - destruct s as [|b s]; [discriminate|].
    destruct (Ascii.eqb_spec a b) as [->|]; [|discriminate].
    intros H. rewrite (IH s H). reflexivity.
Qed.

Lemma firstAfter_sound (ps : list string) (s r : string) :
  Js.firstAfter ps s = Some r -> exists p, In p ps /\ s = (p ++ r)%string.
Proof.
  induction ps as [|p ps IH]; simpl; [discriminate|].
  destruct (Js.dropPrefix p s) as [r'|] eqn:E.
  - intros [= ->]. exists p. split; [left; reflexivity|].
    apply dropPrefix_sound, E.
  - intros H. destruct (IH H) as (q & Hq & ->). exists q. auto.
Qed.

(** What [afterSpace] takes off is one white space character. *)
Lemma afterSpace_sound (s r : string) :
  Js.afterSpace s = Some r -> exists p, In p Js.whiteSpace /\ s = (p ++ r)%string.
Proof. apply firstAfter_sound. Qed.

(** No white space character is the start of another: [afterSpace] takes
    off the one the text starts with. *)
Lemma afterSpace_complete (p r : string) :
  In p Js.whiteSpace -> Js.afterSpace (p ++ r) = Some r.
Proof.
  intros H. unfold Js.afterSpace.
  repeat (destruct H as [<-|H]; [vm_compute; reflexivity|]).
  destruct H.
Qed.

Lemma whiteSpace_nonempty (p : string) : In p Js.whiteSpace -> p <> "".
Proof.
  intros H.
  repeat (destruct H as [<-|H]; [discriminate|]).
  destruct H.
Qed.

Lemma afterSpace_shorter (s r : string) :
  Js.afterSpace s = Some r -> (String.length r < String.length s)%nat.
Proof.
  intros H. destruct (afterSpace_sound s r H) as (p & Hp & ->).
  apply whiteSpace_nonempty in Hp. rewrite length_append.
  destruct p; [congruence|simpl; lia].
Qed.

Lemma afterSpace_app (s r t : string) :
  Js.afterSpace s = Some r -> Js.afterSpace (s ++ t) = Some (r ++ t)%string.
Proof.
  intros H. destruct (afterSpace_sound s r H) as (p & Hp & ->).
  rewrite append_assoc. apply afterSpace_complete, Hp.
Qed.

Lemma trimStartN_enough (n : nat) : forall m s,
  (String.length s <= n)%nat -> (String.length s <= m)%nat ->
  Js.trimStartN n s = Js.trimStartN m s.
Proof.
  induction n as [|n IH]; intros m s Hn Hm.
  - destruct s; [|simpl in Hn; lia]. destruct m; reflexivity.
  - destruct m as [|m].
    + destruct s; [reflexivity|simpl in Hm; lia].
    + simpl. destruct (Js.afterSpace s) as [r|] eqn:E; [|reflexivity].
      apply afterSpace_shorter in E. apply IH; lia.
Qed.

(** [trimStart] takes white space characters off the start as long as
    there is one. *)
Lemma trimStart_eq (s : string) :
  Js.trimStart s = match Js.afterSpace s with
                   | Some r => Js.trimStart r
                   | None => s
                   end.
Proof.
  unfold Js.trimStart. destruct s as [|c s]; [reflexivity|].
  cbn [String.length Js.trimStartN].
  destruct (Js.afterSpace (String c s)) as [r|] eqn:E; [|reflexivity].
  apply afterSpace_shorter in E. simpl in E.
  apply trimStartN_enough; lia.
Qed.

Lemma whiteSpaceOnly_app (a b : string) :
  whiteSpaceOnly a -> whiteSpaceOnly b -> whiteSpaceOnly (a ++ b).
Proof.
  intros Ha Hb. induction Ha as [|p r Hp Hr IH]; [exact Hb|].
  rewrite append_assoc. apply wso_more; assumption.
Qed.

(** [trimStart s] is [s] without a start of white space only, and starts
    with no white space character. *)
Lemma trimStart_spec (s : string) :
  exists a, s = (a ++ Js.trimStart s)%string /\ whiteSpaceOnly a
    /\ Js.afterSpace (Js.trimStart s) = None.
Proof.
  remember (String.length s) as n eqn:Hn.
  revert s Hn. induction n as [n IH] using lt_wf_ind. intros s Hn.
  rewrite trimStart_eq. destruct (Js.afterSpace s) as [r|] eqn:E.
  - pose proof (afterSpace_shorter s r E) as L.
    destruct (afterSpace_sound s r E) as (p & Hp & ->).
    destruct (IH (String.length r)) with (s := r) as (a & Ha & Wa & Na);
      [lia|reflexivity|].
    exists (p ++ a)%string. split; [|split].
    + rewrite append_assoc, <- Ha. reflexivity.
    + apply wso_more; assumption.
    + exact Na.
  - exists "". split; [reflexivity|]. split; [constructor|exact E].
Qed.

Lemma trimStart_whiteSpaceOnly (s : string) :
  whiteSpaceOnly s -> Js.trimStart s = "".
Proof.
  intros H. induction H as [|p r Hp Hr IH]; [reflexivity|].
  rewrite trimStart_eq, (afterSpace_complete p r Hp). exact IH.
Qed.

Lemma trimStart_fixed (s : string) :
  Js.afterSpace s = None -> Js.trimStart s = s.
Proof. intros H. rewrite trimStart_eq, H. reflexivity. Qed.

(** The test [trimEnd] makes is the test for white space only. *)
Lemma allSpace_iff (s : string) : Js.allSpace s = true <-> whiteSpaceOnly s.
Proof.
  unfold Js.allSpace. split.
  - intros H. destruct (trimStart_spec s) as (a & Ha & Wa & _).
    destruct (Js.trimStart s); [|discriminate H].
    rewrite append_nil_r in Ha. subst. exact Wa.
  - intros H. rewrite (trimStart_whiteSpaceOnly s H). reflexivity.
Qed.

(** [trimEnd s] is [s] without an end of white space only. *)
Lemma trimEnd_spec (s : string) :
  exists b, s = (Js.trimEnd s ++ b)%string /\ whiteSpaceOnly b.
Proof.
  induction s as [|c r (b & Hb & Wb)].
  - exists "". split; [reflexivity|constructor].
  - cbn [Js.trimEnd]. destruct (Js.allSpace (String c r)) eqn:E.
    + exists (String c r). split; [reflexivity|apply allSpace_iff, E].
    + exists b. split; [|exact Wb]. simpl. rewrite <- Hb. reflexivity.
Qed.

Lemma trimEnd_empty_iff (s : string) :
  Js.trimEnd s = "" <-> whiteSpaceOnly s.
Proof.
  destruct s as [|c r].
  - split; [constructor|reflexivity].
  - cbn [Js.trimEnd]. destruct (Js.allSpace (String c r)) eqn:E.
    + split; [intros _; apply allSpace_iff, E|reflexivity].
    + split; [discriminate|]. intros H. apply allSpace_iff in H. congruence.
Qed.

(** [text.trim()] is empty exactly for a text of white space only (the
    empty text included). *)
Lemma trim_empty_iff (s : string) : Js.trim s = "" <-> whiteSpaceOnly s.
Proof.
  unfold Js.trim. rewrite trimEnd_empty_iff. split.
  - intros H. destruct (trimStart_spec s) as (a & Ha & Wa & _).
    rewrite Ha. apply whiteSpaceOnly_app; assumption.
  - intros H. rewrite (trimStart_whiteSpaceOnly s H). constructor.
Qed.

Lemma any_app (q : ascii -> bool) (a b : string) :
  Js.any q (a ++ b) = Js.any q a || Js.any q b.
Proof.
  induction a as [|c a IH]; simpl; [reflexivity|].
  rewrite IH, orb_assoc. reflexivity.
Qed.

Lemma any_trim (q : ascii -> bool) (s : string) :
  Js.any q s = false -> Js.any q (Js.trim s) = false.
Proof.
  unfold Js.trim. intros H.
  destruct (trimStart_spec s) as (a & Ha & _).
  destruct (trimEnd_spec (Js.trimStart s)) as (b & Hb & _).
  rewrite Ha, Hb, !any_app in H.
  apply orb_false_iff in H. destruct H as [_ H].
  apply orb_false_iff in H. tauto.
Qed.

Lemma trimEnd_idem (s : string) : Js.trimEnd (Js.trimEnd s) = Js.trimEnd s.
Proof.
  induction s as [|c r IH]; [reflexivity|].
  cbn [Js.trimEnd]. destruct (Js.allSpace (String c r)) eqn:E; [reflexivity|].
  cbn [Js.trimEnd]. rewrite IH.
  destruct (Js.allSpace (String c (Js.trimEnd r))) eqn:E'; [|reflexivity].
  exfalso. apply allSpace_iff in E'.
  destruct (trimEnd_spec r) as (b & Hb & Wb).
  assert (W : whiteSpaceOnly (String c r)).
  { rewrite Hb. apply (whiteSpaceOnly_app (String c (Js.trimEnd r)) b); assumption. }
  apply allSpace_iff in W. congruence.
Qed.

(** The no-break space and the ideographic space are trimmed; the second
    byte of an accented letter, equal to that of the no-break space, is
    not, nor is the zero width space (U+200B), which is no white space. *)
Lemma trim_examples :
  Js.trim (Js.utf8 [194; 160; 9]%nat ++ "a b" ++ Js.utf8 [227; 128; 128; 32]%nat)
  = "a b"
  /\ Js.trim (Js.utf8 [97; 195; 160; 32]%nat) = Js.utf8 [97; 195; 160]%nat
  /\ Js.trim (Js.utf8 [226; 128; 139; 32]%nat) = Js.utf8 [226; 128; 139]%nat.
Proof. repeat split; vm_compute; reflexivity. Qed.

(** [trim] gives a text that [trim] leaves alone. *)
Lemma trim_idem (s : string) : Js.trim (Js.trim s) = Js.trim s.
Proof.
  unfold Js.trim.
  assert (H : Js.trimStart (Js.trimEnd (Js.trimStart s))
              = Js.trimEnd (Js.trimStart s)).
  { apply trimStart_fixed.
    destruct (trimStart_spec s) as (_ & _ & _ & N).
    destruct (trimEnd_spec (Js.trimStart s)) as (b & Hb & _).
    destruct (Js.afterSpace (Js.trimEnd (Js.trimStart s))) as [r|] eqn:E;
      [|reflexivity].
    apply (afterSpace_app _ _ b) in E. rewrite <- Hb in E. congruence. }
  rewrite H. apply trimEnd_idem.
Qed.

(** A white space character is a line separator itself (the line feed) or
    holds none. *)
Lemma whiteSpace_lineSep (p : string) :
  In p Js.whiteSpace ->
  (exists c, p = String c "" /\ isLineSep c = true) \/ Js.any isLineSep p = false.
Proof.
  intros H.
  repeat (destruct H as [<-|H];
          [first [right; reflexivity | left; eexists; split; reflexivity]|]).
  destruct H.
Qed.

Lemma splitRuns_nonempty (sep : ascii -> bool) (s : string) (i : bool) :
  Js.splitRuns sep i s <> [] \/ i = true.
Proof.
  revert i. induction s as [|c r IH]; intros i; simpl.
  - left. discriminate.
  - destruct (sep c).
    + destruct i; [right; reflexivity|left; discriminate].
    + left. destruct (Js.splitRuns sep false r); discriminate.
Qed.

(** A start without separator stays in front of the first piece. *)
Lemma splitRuns_prefix (sep : ascii -> bool) (p r : string) (i : bool) :
  p <> "" -> Js.any sep p = false ->
  exists q qs, Js.splitRuns sep false r = q :: qs
    /\ Js.splitRuns sep i (p ++ r) = (p ++ q)%string :: qs.
Proof.
  intros Hne Hp. revert i. induction p as [|c p IH]; intros i; [congruence|].
  simpl in Hp. apply orb_false_iff in Hp. destruct Hp as [Hc Hp].
  cbn [String.append Js.splitRuns]. rewrite Hc.
  destruct p as [|c' p'].
  - cbn [String.append].
    destruct (Js.splitRuns sep false r) as [|q qs] eqn:E.
    + destruct (splitRuns_nonempty sep r false) as [N|N]; congruence.
    + exists q, qs. auto.
  - destruct (IH ltac:(discriminate) Hp false) as (q & qs & E & ->).
    exists q, qs. auto.
Qed.

(** The lines of a text of white space only are of white space only. *)
Lemma splitRuns_whiteSpaceOnly (s : string) :
  whiteSpaceOnly s ->
  forall i p, In p (Js.splitRuns isLineSep i s) -> whiteSpaceOnly p.
Proof.
  intros H. induction H as [|p r Hp Hr IH]; intros i x Hx.
  - destruct Hx as [<-|[]]. constructor.
  - destruct (whiteSpace_lineSep p Hp) as [(c & -> & Hc)|Hn].
    + cbn [String.append Js.splitRuns] in Hx. rewrite Hc in Hx.
      destruct i.
      * apply (IH true), Hx.
      * destruct Hx as [<-|Hx]; [constructor|apply (IH true), Hx].
    + destruct (splitRuns_prefix isLineSep p r i (whiteSpace_nonempty p Hp) Hn)
        as (q & qs & E & E').
      rewrite E' in Hx. destruct Hx as [<-|Hx].
      * apply wso_more; [exact Hp|]. apply (IH false). rewrite E. left. reflexivity.
      * apply (IH false). rewrite E. right. exact Hx.
Qed.

(** C4, as the code has it: for a text that is empty or of white space
    only ([trim] leaves nothing of it), [importFlashcards] shows the alert
    and does nothing else; for a text that yields no card, the cards, the
    session, the storage and the page are as before the call. *)
Theorem import_without_cards (now : string) (w : World) :
  (whiteSpaceOnly (importText w) ->
   importFlashcards now w
   = Done (emit (Alert "Please enter some flashcard content") w))
  /\ (parseCards (importText w) = [] ->
      exists w', importFlashcards now w = Done w'
        /\ flashcards w' = flashcards w /\ state w' = state w
        /\ localStorage w' = localStorage w /\ dom w' = dom w).
Proof.
  unfold importFlashcards. split.
  - intros H. apply trim_empty_iff in H. rewrite H. reflexivity.
  - intros H. rewrite H. cbn [List.length Nat.ltb Nat.leb].
    destruct (negb _); eexists; (split; [reflexivity|]); simpl; auto.
Qed.

Lemma import_without_cards_witness :
  let blank := typeImport "Set" mixedSpace startWorld in
  let single := typeImport "Set" "OnlyOneColumn" startWorld in
  whiteSpaceOnly (importText blank)
  /\ parseCards (importText single) = []
  /\ importFlashcards "2024-01-01T00:00:00.000Z" blank
     = Done (emit (Alert "Please enter some flashcard content") blank)
  /\ exists w', importFlashcards "2024-01-01T00:00:00.000Z" single = Done w'
       /\ flashcards w' = flashcards single /\ state w' = state single
       /\ localStorage w' = localStorage single /\ dom w' = dom single.
Proof.
  intros blank single.
  assert (Hb : whiteSpaceOnly (importText blank)).
  { change (whiteSpaceOnly
              (Js.utf8 [32]%nat ++ Js.utf8 [194; 160]%nat ++ Js.utf8 [9]%nat
               ++ Js.utf8 [226; 128; 168]%nat ++ "")).
    repeat (apply wso_more; [vm_compute; tauto|]). apply wso_empty. }
  assert (Hs : parseCards (importText single) = []) by reflexivity.
  split; [exact Hb|]. split; [exact Hs|]. split.
  - exact (proj1 (import_without_cards "2024-01-01T00:00:00.000Z" blank) Hb).
  - exact (proj2 (import_without_cards "2024-01-01T00:00:00.000Z" single) Hs).
Defined.

(** C4 fails for a text that is not blank and yields no card: the import
    of [OnlyOneColumn] ends without any effect, so without a message. *)
Lemma import_of_single_column_is_silent :
  let w := typeImport "Set" "OnlyOneColumn" startWorld in
  parseCards (importText w) = []
  /\ importFlashcards "2024-01-01T00:00:00.000Z" w = Done w
  /\ forall msg, ~ In (Alert msg) (effects (worldOf
                    (importFlashcards "2024-01-01T00:00:00.000Z" w))).
Proof.
  intros w. split; [reflexivity|]. split; [reflexivity|].
  intros msg. vm_compute. intros [H|[]]. discriminate H.
Qed.

(** ** Import: one line *)

Lemma split_head (sep : ascii -> bool) (s : string) :
  exists ps, Js.split sep s = Js.upTo sep s :: ps.
Proof.
  induction s as [|c r [ps IH]]; simpl; [eauto|].
  destruct (sep c); [eauto|]. rewrite IH. eauto.
Qed.

Lemma split_without_sep (sep : ascii -> bool) (s : string) :
  Js.any sep s = false -> Js.split sep s = [s].
Proof.
  induction s as [|c r IH]; simpl; [reflexivity|].
  intros H. apply orb_false_iff in H. destruct H as [Hc Hr].
  rewrite Hc, (IH Hr). reflexivity.
Qed.

Lemma split_at_first_sep (sep : ascii -> bool) (a : string) (d : ascii)
    (b : string) :
  Js.any sep a = false -> sep d = true ->
  Js.split sep (a ++ String d b) = a :: Js.split sep b.
Proof.
  intros Ha Hd. induction a as [|c r IH]; simpl.
  - rewrite Hd. reflexivity.
  - simpl in Ha. apply orb_false_iff in Ha. destruct Ha as [Hc Hr].
    rewrite Hc, (IH Hr). reflexivity.
Qed.

Lemma first_sep (sep : ascii -> bool) (s : string) :
  Js.any sep s = true ->
  exists a d b, s = a ++ String d b /\ Js.any sep a = false /\ sep d = true.
Proof.
  induction s as [|c r IH]; simpl; [discriminate|].
  destruct (sep c) eqn:E.
  - intros _. exists "", c, r. auto.
  - simpl. intros H. destruct (IH H) as (a & d & b & -> & Ha & Hd).
    exists (String c a), d, b. simpl. rewrite E. auto.
Qed.

(** C5, as the code has it: a line is split at every tab and comma and its
    parts are trimmed.  A line without tab or comma gives no card.  Any
    other line gives one card: its term is the trimmed text before the
    first separator, its definition the trimmed text between the first
    separator and the next one (or the end of the line); what follows is
    ignored.  Nothing asks the two parts to be non-empty. *)
Theorem lineCards_spec (line : string) :
  (Js.any isFieldSep line = false /\ lineCards line = [])
  \/ (exists a d b,
        line = a ++ String d b
        /\ Js.any isFieldSep a = false /\ isFieldSep d = true
        /\ lineCards line
           = [mkCard (Js.trim a) (Js.trim (Js.upTo isFieldSep b))]).
Proof.
  destruct (Js.any isFieldSep line) eqn:E.
  - right. destruct (first_sep _ _ E) as (a & d & b & -> & Ha & Hd).
    exists a, d, b. repeat split; auto.
    unfold lineCards, lineParts. rewrite (split_at_first_sep _ _ _ _ Ha Hd).
    destruct (split_head isFieldSep b) as [ps ->]. reflexivity.
  - left. split; [reflexivity|].
    unfold lineCards, lineParts. rewrite (split_without_sep _ _ E). reflexivity.
Qed.

(** C5 fails on the non-empty parts: the line [a,] gives a card with an
    empty definition, and the line [,] a card with two empty parts.  (The
    line [a,b,c] is cut at both commas: its definition is [b].) *)
Lemma line_with_empty_part_gives_card :
  lineCards "a," = [mkCard "a" ""]
  /\ lineCards "," = [mkCard "" ""]
  /\ parseCards "a," = [mkCard "a" ""]
  /\ lineCards "a,b,c" = [mkCard "a" "b"]
  /\ ~ (forall line c, In c (lineCards line) ->
          term c <> "" /\ definition c <> "").
Proof.
  split; [reflexivity|]. split; [reflexivity|]. split; [reflexivity|].
  split; [reflexivity|].
  intros H. destruct (H "a," (mkCard "a" "") (or_introl eq_refl)) as [_ Hd].
  apply Hd. reflexivity.
Qed.

(** ** The stars of the list entries *)

(** C6, as the code has it: the star of an entry of the panel list (shown
    by [option-b] and [option-e]) and the star of a table row have no click
    listener, and neither has the entry or the row the click bubbles to; the
    navigation listener of a panel entry sits on the content, which is not
    on that path.  A click on such a star changes nothing, neither
    [currentIndex] nor the starred cards, and writes nothing. *)
Theorem star_of_entry_is_inert (k : nat) (w : World) :
  (forall n, In n (bubblePath (OnPanelStar k)) -> listenerOf n w = None)
  /\ (forall n, In n (bubblePath (OnTableStar k)) -> listenerOf n w = None)
  /\ ~ In (OnPanelContent k) (bubblePath (OnPanelStar k))
  /\ click (OnPanelStar k) w = Done w
  /\ click (OnTableStar k) w = Done w
  /\ currentIndex (state (worldOf (click (OnPanelStar k) w)))
     = currentIndex (state w)
  /\ currentIndex (state (worldOf (click (OnTableStar k) w)))
     = currentIndex (state w)
  /\ starredCards (state (worldOf (click (OnPanelStar k) w)))
     = starredCards (state w)
  /\ starredCards (state (worldOf (click (OnTableStar k) w)))
     = starredCards (state w).
Proof.
  split; [intros n [<-|[<-|[]]]; reflexivity|].
  split; [intros n [<-|[<-|[]]]; reflexivity|].
  split; [intros [H|[H|[]]]; discriminate H|].
  repeat split.
Qed.

(** C6 fails on the toggle: in the panel variant, with the second entry
    rendered, a click on its star leaves card 1 unstarred and the storage
    without a session snapshot, where [toggleStar(1)] of the specification
    stars it and saves. *)
Lemma click_on_panel_star_toggles_nothing :
  (exists r, rowAt (panelTermsList (dom panelWorld)) 1 = Some r
             /\ row_index r = 1)
  /\ click (OnPanelStar 1) panelWorld = Done panelWorld
  /\ Js.has (starredCards (state (worldOf (click (OnPanelStar 1) panelWorld)))) 1
     = false
  /\ Js.has (starredCards (state (specToggleStar 1 panelWorld))) 1 = true
  /\ item_flashcardState
       (localStorage (worldOf (click (OnPanelStar 1) panelWorld))) = None
  /\ worldOf (click (OnPanelStar 1) panelWorld) <> specToggleStar 1 panelWorld.
Proof.
  split; [eexists; split; vm_compute; reflexivity|].
  split; [reflexivity|]. split; [reflexivity|]. split; [reflexivity|].
  split; [reflexivity|].
  intros H. apply (f_equal (fun w => starredCards (state w))) in H.
  vm_compute in H. discriminate H.
Qed.

(** ** The three snapshots *)

Lemma contentWrites_app (l1 l2 : list Effect) :
  contentWrites (l1 ++ l2) = (contentWrites l1 + contentWrites l2)%nat.
Proof. unfold contentWrites. rewrite filter_app, length_app. reflexivity. Qed.





Ltac frame_tac :=
  unfold keepsContent, onlyDom, sameData, sameSession;
  crush; rewrite ?contentWrites_app; simpl; auto using Nat.add_0_r.

Lemma updateTopicsList_onlyDom cs w : onlyDom w (updateTopicsList cs w).
Proof. unfold updateTopicsList. frame_tac. Qed.

Lemma updatePanelTermsList_onlyDom w : onlyDom w (updatePanelTermsList w).
Proof. unfold updatePanelTermsList. frame_tac. Qed.

Lemma updateJourneyView_onlyDom w : onlyDom w (updateJourneyView w).
Proof. unfold updateJourneyView. frame_tac. Qed.

Lemma initTableView_onlyDom w : onlyDom w (initTableView w).
Proof. unfold initTableView. frame_tac. Qed.

Lemma onlyDom_refl w : onlyDom w w.
Proof. repeat split. Qed.

Lemma onlyDom_trans w1 w2 w3 : onlyDom w1 w2 -> onlyDom w2 w3 -> onlyDom w1 w3.
Proof.
  unfold onlyDom. intros (A & B & C & D) (E & F & G & H).
  repeat split; congruence.
Qed.











Lemma ite_onlyDom (c : bool) (f : World -> World) (w0 w : World) :
  onlyDom w0 w -> (forall x, onlyDom x (f x)) ->
  onlyDom w0 (if c then f w else w).
Proof.
  intros H Hf. destruct c; [|exact H].
  eapply onlyDom_trans; [exact H|apply Hf].
Qed.


(** An import that gets through: the cards are replaced, the index is 0,
    and the content snapshot [{ title, flashcards, savedAt }] is written,
    once, as the only write. *)
Lemma importFlashcards_accepted (now : string) (w : World) :
  Js.truthy (Js.trim (importText w)) = true ->
  (0 <? List.length (parseCards (importText w)))%nat = true ->
  exists w', importFlashcards now w = Done w'
    /\ flashcards w' = parseCards (importText w)
    /\ currentIndex (state w') = 0
    /\ effects w' = (effects w ++ [SetItem "flashcardContent"])%list
    /\ localStorage w'
       = mkStorage (item_designVariant (localStorage w))
           (item_flashcardState (localStorage w))
           (Some (mkContent (importTitle w) (parseCards (importText w)) now)).
Proof.
  intros Ht Hn. unfold importFlashcards. rewrite Ht, Hn. cbn [negb].
  set (w1 := setCurrentIndex 0 (withFlashcards (parseCards (importText w)) w)).
  assert (Hin : inRange w1).
  { unfold inRange. simpl. apply Nat.ltb_lt in Hn. lia. }
  destruct (updateCard_done false w1 Hin) as [w2 E].
  destruct (updateCard_frame false w1) as [(F & L & Ef) (C & _)].
  rewrite E in *. cbn [andThen worldOf] in *.
  match goal with
  | |- context [saveContent _ (flashcards ?x) _ ?x] =>
      assert (H6 : onlyDom w2 x)
  end.
  { repeat apply ite_onlyDom;
      auto using updateTopicsList_onlyDom, updatePanelTermsList_onlyDom,
        updateJourneyView_onlyDom, initTableView_onlyDom. }
  destruct H6 as (F6 & S6 & L6 & E6).
  eexists. split; [reflexivity|].
  cbn [closeImportModal saveContent emit withStorage withDom flashcards state
       effects localStorage].
  rewrite F6, S6, L6, E6, F, C, L, Ef. repeat split.
Qed.



(** What [init] adds to a loaded page as far as the session goes: the
    snapshot is read, and nothing after that changes index, stars or
    variant. *)
Lemma startup_session (page : Dom) (st : Storage) (w1 : World) :
  loadDesignVariant (loadPage page st) = Done w1 ->
  sameSession (loadSavedState w1) (worldOf (startup page st)).
Proof.
  intros E. unfold startup, init. rewrite E. cbn [andThen].
  destruct (updateCard_frame false (loadSavedState w1)) as [_ S].
  destruct (updateCard false (loadSavedState w1)) as [w2|e w2]; simpl in *.
  - unfold updateTopicsList. destruct (topicsContainer _); exact S.
  - exact S.
Qed.

(** A value usable as a class name becomes the variant of the session;
    the session snapshot in the storage stays. *)
Lemma setDesignVariant_token (v : string) (w : World) :
  v <> "" -> Js.hasTokenSpace v = false ->
  exists w', setDesignVariant v w = Done w'
    /\ designVariant (state w') = v
    /\ item_flashcardState (localStorage w')
       = item_flashcardState (localStorage w).
Proof.
  intros Hne Hsp. unfold setDesignVariant.
  rewrite (truthy_nonempty _ Hne), Hsp. cbn [negb].
  unfold updatePanelTitle, updatePanelTermsList, updateJourneyView, initTableView.
  repeat break_match; eexists; (split; [reflexivity|]); simpl; auto.
Qed.


Lemma loadSavedState_reads (w : World) (ci : Z) (stars : list Z) :
  item_flashcardState (localStorage w) = Some (SavedState (Some ci) (Some stars)) ->
  currentIndex (state (loadSavedState w)) = ci
  /\ starredCards (state (loadSavedState w)) = Js.newSet stars
  /\ designVariant (state (loadSavedState w)) = designVariant (state w).
Proof.
  intros H. unfold loadSavedState. rewrite H. simpl.
  destruct (ci =? 0) eqn:E; [apply Z.eqb_eq in E; subst|]; auto.
Qed.

Lemma loadSavedState_variant (w : World) :
  designVariant (state (loadSavedState w)) = designVariant (state w).
Proof. unfold loadSavedState. crush. Qed.

(** [init] gets past [loadDesignVariant] unless the stored variant has
    whitespace in it; an absent or empty one counts as [option-a]. *)
Lemma loadDesignVariant_done (page : Dom) (st : Storage) :
  (forall v, item_designVariant st = Some v -> Js.hasTokenSpace v = false) ->
  exists w1, loadDesignVariant (loadPage page st) = Done w1
    /\ (forall v, item_designVariant st = Some v -> v <> "" ->
          designVariant (state w1) = v)
    /\ ((item_designVariant st = None \/ item_designVariant st = Some "") ->
          designVariant (state w1) = "option-a")
    /\ item_flashcardState (localStorage w1) = item_flashcardState st.
Proof.
  intros Hv. unfold loadDesignVariant. cbn [loadPage localStorage].
  destruct (item_designVariant st) as [[|c r]|] eqn:E; cbn [Js.truthy].
  - destruct (setDesignVariant_token "option-a" (loadPage page st))
      as (w1 & E1 & D1 & S1); [discriminate|reflexivity|].
    exists w1. repeat split; auto. intros v Hs Hne. congruence.
  - destruct (setDesignVariant_token (String c r) (loadPage page st))
      as (w1 & E1 & D1 & S1); [discriminate|apply Hv; reflexivity|].
    exists w1. repeat split; auto.
    + intros v Hs _. congruence.
    + intros [H|H]; discriminate H.
  - destruct (setDesignVariant_token "option-a" (loadPage page st))
      as (w1 & E1 & D1 & S1); [discriminate|reflexivity|].
    exists w1. repeat split; auto. discriminate.
Qed.








(** ** The index after a reload *)



(** C1 on the code: during the session the index stays in range (8 of 9
    cards), and [toggleStar] stores it.  The next load of the page starts
    from the eight sample cards, [loadSavedState] installs the stored index
    8 unchecked, and [updateCard] throws a [TypeError] inside [init]: the
    index is out of range and the listeners are never attached. *)
Theorem stale_index_breaks_startup :
  let session := run nineCardSession startWorld in
  inRange session
  /\ List.length (flashcards session) = 9%nat
  /\ item_flashcardState (localStorage session)
     = Some (SavedState (Some 8) (Some [8]))
  /\ exists w', startup samplePage (localStorage session) = Threw TypeError w'
       /\ currentIndex (state w') = 8
       /\ List.length (flashcards w') = 8%nat
       /\ ~ inRange w'
       /\ listenersAttached (dom w') = false.
Proof.
  split; [unfold inRange; vm_compute; split; [discriminate|reflexivity]|].
  split; [reflexivity|]. split; [reflexivity|].
  eexists. split; [vm_compute; reflexivity|].
  split; [reflexivity|]. split; [reflexivity|]. split; [|reflexivity].
  unfold inRange. simpl. lia.
Qed.

(** * Further properties of the script *)

(** ** Stars *)

Lemma has_add (s : list Z) (i x : Z) :
  Js.has (Js.add s i) x = (x =? i) || Js.has s x.
Proof.
  unfold Js.add. destruct (Js.has s i) eqn:E.
  - destruct (x =? i) eqn:Ex; [|reflexivity].
    apply Z.eqb_eq in Ex. subst. rewrite E. reflexivity.
  - unfold Js.has. rewrite existsb_app. simpl.
    rewrite orb_false_r. apply orb_comm.
Qed.

Lemma has_delete (s : list Z) (i x : Z) :
  Js.has (Js.delete s i) x = negb (x =? i) && Js.has s x.
Proof.
  unfold Js.has, Js.delete. induction s as [|y s IH]; simpl.
  - apply eq_sym, andb_false_r.
  - destruct (i =? y) eqn:E; simpl.
    + apply Z.eqb_eq in E. subst y. rewrite IH.
      destruct (x =? i); reflexivity.
    + rewrite IH. destruct (x =? y) eqn:Ey; simpl.
      * apply Z.eqb_eq in Ey. subst y.
        rewrite Z.eqb_sym, E. reflexivity.
      * reflexivity.
Qed.

Lemma delete_absent (s : list Z) (i : Z) :
  Js.has s i = false -> Js.delete s i = s.
Proof.
  unfold Js.has, Js.delete. induction s as [|y s IH]; simpl; [reflexivity|].
  intros H. apply orb_false_iff in H. destruct H as [Hy Hs].
  rewrite Hy. simpl. rewrite (IH Hs). reflexivity.
Qed.

Lemma delete_add_absent (s : list Z) (i : Z) :
  Js.has s i = false -> Js.delete (Js.add s i) i = s.
Proof.
  intros H. unfold Js.add. rewrite H. unfold Js.delete.
  rewrite filter_app. simpl. rewrite Z.eqb_refl. simpl.
  rewrite app_nil_r. exact (delete_absent s i H).
Qed.

Lemma toggleStar_sessionSaved (w : World) : sessionSaved (toggleStar w).
Proof. unfold sessionSaved, toggleStar, saveState, updateStarButton. crush. Qed.

(** What [toggleStar] does to the membership of a card, and to the index. *)
Lemma toggleStar_has (w : World) (x : Z) :
  Js.has (starredCards (state (toggleStar w))) x
  = (if x =? currentIndex (state w)
     then negb (Js.has (starredCards (state w)) x)
     else Js.has (starredCards (state w)) x)
  /\ currentIndex (state (toggleStar w)) = currentIndex (state w).
Proof.
  assert (S : starredCards (state (toggleStar w))
              = if Js.has (starredCards (state w)) (currentIndex (state w))
                then Js.delete (starredCards (state w)) (currentIndex (state w))
                else Js.add (starredCards (state w)) (currentIndex (state w))).
  { unfold toggleStar, saveState, updateStarButton. crush. }
  split.
  - rewrite S. destruct (Js.has _ (currentIndex _)) eqn:E.
    + rewrite has_delete. destruct (x =? _) eqn:Ex; simpl; [|reflexivity].
      apply Z.eqb_eq in Ex. subst. rewrite E. reflexivity.
    + rewrite has_add. destruct (x =? _) eqn:Ex; simpl; [|reflexivity].
      apply Z.eqb_eq in Ex. subst. rewrite E. reflexivity.
  - unfold toggleStar, saveState, updateStarButton. crush.
Qed.

(** X1: [toggleStar] changes the star of the current card and of no other
    card, and leaves the index, the flip flag, the variant and the cards as
    they are. *)
Theorem toggleStar_flips_current (w : World) (x : Z) :
  Js.has (starredCards (state (toggleStar w))) x
  = (if x =? currentIndex (state w)
     then negb (Js.has (starredCards (state w)) x)
     else Js.has (starredCards (state w)) x)
  /\ currentIndex (state (toggleStar w)) = currentIndex (state w)
  /\ isFlipped (state (toggleStar w)) = isFlipped (state w)
  /\ designVariant (state (toggleStar w)) = designVariant (state w)
  /\ flashcards (toggleStar w) = flashcards w.
Proof.
  destruct (toggleStar_has w x) as [H C].
  split; [exact H|]. split; [exact C|].
  unfold toggleStar, saveState, updateStarButton. crush.
Qed.

(** X2: two calls of [toggleStar] in a row leave the same cards starred;
    when the current card was not starred, the set is back exactly as it
    was, order included, and the snapshot in the storage holds it. *)
Theorem toggleStar_twice (w : World) :
  sameStars (starredCards (state w))
            (starredCards (state (toggleStar (toggleStar w))))
  /\ (Js.has (starredCards (state w)) (currentIndex (state w)) = false ->
      starredCards (state (toggleStar (toggleStar w))) = starredCards (state w)
      /\ item_flashcardState (localStorage (toggleStar (toggleStar w)))
         = Some (SavedState (Some (currentIndex (state w)))
                            (Some (starredCards (state w))))).
Proof.
  split.
  - intros x.
    destruct (toggleStar_has (toggleStar w) x) as (H2 & C2).
    destruct (toggleStar_has w x) as (H1 & C1).
    rewrite H2, C1, H1.
    destruct (x =? currentIndex (state w)); [apply negb_involutive|reflexivity].
  - intros H.
    assert (S : starredCards (state (toggleStar (toggleStar w)))
                = starredCards (state w)).
    { assert (S1 : starredCards (state (toggleStar w))
                   = Js.add (starredCards (state w)) (currentIndex (state w))
                   /\ currentIndex (state (toggleStar w)) = currentIndex (state w)).
      { unfold toggleStar, saveState, updateStarButton. rewrite H. crush. }
      destruct S1 as [S1 C1].
      assert (H1 : Js.has (starredCards (state (toggleStar w)))
                     (currentIndex (state (toggleStar w))) = true).
      { rewrite S1, C1, has_add, Z.eqb_refl. reflexivity. }
      assert (S2 : starredCards (state (toggleStar (toggleStar w)))
                   = Js.delete (starredCards (state (toggleStar w)))
                       (currentIndex (state (toggleStar w)))).
      { generalize (toggleStar w) H1. intros v Hv.
        unfold toggleStar, saveState, updateStarButton. rewrite Hv. crush. }
      rewrite S2, S1, C1. apply delete_add_absent, H. }
    split; [exact S|].
    pose proof (toggleStar_sessionSaved (toggleStar w)) as P.
    unfold sessionSaved in P. rewrite P, S.
    destruct (toggleStar_has (toggleStar w) 0) as (_ & C2).
    destruct (toggleStar_has w 0) as (_ & C1).
    rewrite C2, C1. reflexivity.
Qed.

Lemma has_In (s : list Z) (x : Z) : Js.has s x = true <-> In x s.
Proof.
  unfold Js.has. rewrite existsb_exists. split.
  - intros (y & Hy & E). apply Z.eqb_eq in E. subst. exact Hy.
  - intros H. exists x. split; [exact H|apply Z.eqb_refl].
Qed.

Lemma has_false (s : list Z) (x : Z) : ~ In x s -> Js.has s x = false.
Proof.
  intros H. destruct (Js.has s x) eqn:E; [|reflexivity].
  apply has_In in E. contradiction.
Qed.

Lemma add_NoDup (s : list Z) (x : Z) : NoDup s -> NoDup (Js.add s x).
Proof.
  intros H. unfold Js.add. destruct (Js.has s x) eqn:E; [exact H|].
  apply NoDup_app; [exact H|repeat constructor; intros []|].
  intros y Hy [<-|[]]. apply has_In in Hy. congruence.
Qed.

Lemma delete_NoDup (s : list Z) (x : Z) : NoDup s -> NoDup (Js.delete s x).
Proof. intros H. unfold Js.delete. apply NoDup_filter, H. Qed.


Lemma fold_add_fresh (l acc : list Z) :
  NoDup (acc ++ l) -> fold_left Js.add l acc = (acc ++ l)%list.
Proof.
  revert acc. induction l as [|x l IH]; intros acc H; simpl.
  - rewrite app_nil_r. reflexivity.
  - assert (E : Js.add acc x = (acc ++ [x])%list).
    { unfold Js.add. rewrite has_false; [reflexivity|].
      intros Hin. apply NoDup_remove_2 in H. apply H.
      apply in_or_app. left. exact Hin. }
    rewrite E, IH; rewrite <- app_assoc; [reflexivity|exact H].
Qed.


Lemma newSet_id (l : list Z) : NoDup l -> Js.newSet l = l.
Proof. intros H. unfold Js.newSet. rewrite fold_add_fresh; [reflexivity|exact H]. Qed.

Lemma toggleStar_NoDup (w : World) :
  NoDup (starredCards (state w)) -> NoDup (starredCards (state (toggleStar w))).
Proof.
  intros H.
  assert (S : starredCards (state (toggleStar w))
              = if Js.has (starredCards (state w)) (currentIndex (state w))
                then Js.delete (starredCards (state w)) (currentIndex (state w))
                else Js.add (starredCards (state w)) (currentIndex (state w))).
  { unfold toggleStar, saveState, updateStarButton. crush. }
  rewrite S. destruct (Js.has _ _); [apply delete_NoDup|apply add_NoDup]; exact H.
Qed.

(** ** Reload *)

(** X3: what [toggleStar] saves comes back on the next load of the page:
    [init] on the storage a [toggleStar] left installs the index and the
    starred cards the session had after the toggle, order included (as
    long as the stored variant lets [init] get that far). *)
Theorem session_round_trip (page : Dom) (w : World) :
  NoDup (starredCards (state w)) ->
  (forall v, item_designVariant (localStorage w) = Some v ->
             Js.hasTokenSpace v = false) ->
  let reloaded := worldOf (startup page (localStorage (toggleStar w))) in
  currentIndex (state reloaded) = currentIndex (state (toggleStar w))
  /\ starredCards (state reloaded) = starredCards (state (toggleStar w)).
Proof.
  intros Hnd Hv reloaded.
  assert (Hv' : forall v,
            item_designVariant (localStorage (toggleStar w)) = Some v ->
            Js.hasTokenSpace v = false).
  { intros v H. apply Hv. rewrite <- H.
    unfold toggleStar, saveState, updateStarButton. crush. }
  destruct (loadDesignVariant_done page _ Hv') as (w1 & E1 & _ & _ & S1).
  destruct (startup_session page _ w1 E1) as (C & S & _).
  pose proof (toggleStar_sessionSaved w) as P. unfold sessionSaved in P.
  rewrite P in S1.
  destruct (loadSavedState_reads w1 _ _ S1) as (A & B & _).
  unfold reloaded. rewrite C, S, A, B. split; [reflexivity|].
  apply newSet_id, toggleStar_NoDup, Hnd.
Qed.

Lemma session_round_trip_witness :
  let w := worldOf (nextCard (toggleStar startWorld)) in
  let reloaded := worldOf (startup samplePage (localStorage (toggleStar w))) in
  NoDup (starredCards (state w))
  /\ starredCards (state (toggleStar w)) = [0; 1]
  /\ currentIndex (state reloaded) = 1
  /\ starredCards (state reloaded) = [0; 1].
Proof.
  intros w reloaded.
  assert (Hnd : NoDup (starredCards (state w))).
  { repeat constructor; simpl; tauto. }
  assert (Hv : forall v, item_designVariant (localStorage w) = Some v ->
                         Js.hasTokenSpace v = false).
  { intros v H. injection H as <-. reflexivity. }
  split; [exact Hnd|]. split; [reflexivity|].
  exact (session_round_trip samplePage w Hnd Hv).
Defined.

(** X4: the variant a [setDesignVariant] stored is the variant of the
    session after the next load of the page. *)
Theorem variant_round_trip (page : Dom) (v : string) (w : World) :
  v <> "" -> Js.hasTokenSpace v = false ->
  exists w', setDesignVariant v w = Done w'
    /\ item_designVariant (localStorage w') = Some v
    /\ designVariant (state (worldOf (startup page (localStorage w')))) = v.
Proof.
  intros Hne Hsp.
  destruct (setDesignVariant_token v w Hne Hsp) as (w' & E & _ & _).
  exists w'. split; [exact E|].
  assert (Hs : item_designVariant (localStorage w') = Some v).
  { revert E. unfold setDesignVariant.
    rewrite (truthy_nonempty _ Hne), Hsp. cbn [negb].
    unfold updatePanelTitle, updatePanelTermsList, updateJourneyView,
      initTableView.
    repeat break_match; intros H; injection H as <-; reflexivity. }
  split; [exact Hs|].
  assert (Hv : forall u, item_designVariant (localStorage w') = Some u ->
                         Js.hasTokenSpace u = false).
  { intros u Hu. rewrite Hs in Hu. injection Hu as <-. exact Hsp. }
  destruct (loadDesignVariant_done page _ Hv) as (w1 & E1 & D1 & _ & _).
  destruct (startup_session page _ w1 E1) as (_ & _ & D).
  rewrite D, loadSavedState_variant. exact (D1 v Hs Hne).
Qed.

Lemma variant_round_trip_witness :
  "option-d" <> "" /\ Js.hasTokenSpace "option-d" = false
  /\ exists w', setDesignVariant "option-d" startWorld = Done w'
    /\ item_designVariant (localStorage w') = Some "option-d"
    /\ designVariant (state (worldOf (startup samplePage (localStorage w'))))
       = "option-d".
Proof.
  assert (Hne : "option-d" <> "") by discriminate.
  assert (Hsp : Js.hasTokenSpace "option-d" = false) by reflexivity.
  split; [exact Hne|]. split; [exact Hsp|].
  exact (variant_round_trip samplePage "option-d" startWorld Hne Hsp).
Defined.

(** ** Navigation back and forth *)

(** X5: from an index in range, [nextCard] followed by [prevCard] and
    [prevCard] followed by [nextCard] both run without exception and end on
    the index they started from. *)
Theorem next_prev_inverse (w : World) :
  inRange w ->
  (exists w1 w2, nextCard w = Done w1 /\ prevCard w1 = Done w2
     /\ currentIndex (state w2) = currentIndex (state w))
  /\ (exists w1 w2, prevCard w = Done w1 /\ nextCard w1 = Done w2
     /\ currentIndex (state w2) = currentIndex (state w)).
Proof.
  intros H.
  assert (Hn : 0 < Z.of_nat (List.length (flashcards w)))
    by (unfold inRange in H; lia).
  split.
  - destruct (nextCard_step w H) as (w1 & E1 & F1 & C1).
    assert (H1 : inRange w1).
    { unfold inRange. rewrite F1, C1. apply Z.mod_pos_bound, Hn. }
    destruct (prevCard_step w1 H1) as (w2 & E2 & F2 & C2).
    exists w1, w2. split; [exact E1|]. split; [exact E2|].
    rewrite C2, F1, C1, Zminus_mod_idemp_l.
    replace (currentIndex (state w) + 1 - 1) with (currentIndex (state w)) by lia.
    apply Z.mod_small, H.
  - destruct (prevCard_step w H) as (w1 & E1 & F1 & C1).
    assert (H1 : inRange w1).
    { unfold inRange. rewrite F1, C1. apply Z.mod_pos_bound, Hn. }
    destruct (nextCard_step w1 H1) as (w2 & E2 & F2 & C2).
    exists w1, w2. split; [exact E1|]. split; [exact E2|].
    rewrite C2, F1, C1, Zplus_mod_idemp_l.
    replace (currentIndex (state w) - 1 + 1) with (currentIndex (state w)) by lia.
    apply Z.mod_small, H.
Qed.

Lemma next_prev_inverse_witness :
  let w := setCurrentIndex 7 (loadPage samplePage emptyStorage) in
  inRange w
  /\ (exists w1 w2, nextCard w = Done w1 /\ prevCard w1 = Done w2
        /\ currentIndex (state w2) = 7)
  /\ (exists w1 w2, prevCard w = Done w1 /\ nextCard w1 = Done w2
        /\ currentIndex (state w2) = 7).
Proof.
  intros w.
  assert (H : inRange w) by (unfold inRange; simpl; lia).
  split; [exact H|]. exact (next_prev_inverse w H).
Defined.

(** ** The import parser *)

Lemma split_pieces (sep : ascii -> bool) (s p : string) :
  In p (Js.split sep s) -> Js.any sep p = false.
Proof.
  revert p. induction s as [|c r IH]; simpl; intros p H.
  - destruct H as [<-|[]]. reflexivity.
  - destruct (sep c) eqn:E.
    + destruct H as [<-|H]; [reflexivity|apply IH, H].
    + destruct (Js.split sep r) as [|p0 ps].
      * destruct H as [<-|[]]. simpl. rewrite E. reflexivity.
      * destruct H as [<-|H].
        -- simpl. rewrite E. apply IH. left. reflexivity.
        -- apply IH. right. exact H.
Qed.

Lemma split_pieces_keep (q sep : ascii -> bool) (s p : string) :
  Js.any q s = false -> In p (Js.split sep s) -> Js.any q p = false.
Proof.
  revert p. induction s as [|c r IH]; simpl; intros p Hq H.
  - destruct H as [<-|[]]. reflexivity.
  - apply orb_false_iff in Hq. destruct Hq as [Hc Hr].
    destruct (sep c).
    + destruct H as [<-|H]; [reflexivity|apply IH; assumption].
    + destruct (Js.split sep r) as [|p0 ps].
      * destruct H as [<-|[]]. simpl. rewrite Hc. reflexivity.
      * destruct H as [<-|H].
        -- simpl. rewrite Hc. apply IH; [exact Hr|left; reflexivity].
        -- apply IH; [exact Hr|right; exact H].
Qed.

Lemma splitRuns_pieces (sep : ascii -> bool) (s : string) :
  forall i p, In p (Js.splitRuns sep i s) -> Js.any sep p = false.
Proof.
  induction s as [|c r IH]; simpl; intros i p H.
  - destruct H as [<-|[]]. reflexivity.
  - destruct (sep c) eqn:E.
    + destruct i.
      * apply (IH true), H.
      * destruct H as [<-|H]; [reflexivity|apply (IH true), H].
    + destruct (Js.splitRuns sep false r) as [|p0 ps] eqn:S.
      * destruct H as [<-|[]]. simpl. rewrite E. reflexivity.
      * destruct H as [<-|H].
        -- simpl. rewrite E. apply (IH false). rewrite S. left. reflexivity.
        -- apply (IH false). rewrite S. right. exact H.
Qed.

Lemma in_lineCards (line : string) (c : Card) :
  In c (lineCards line) ->
  exists p0 p1, In p0 (Js.split isFieldSep line)
    /\ In p1 (Js.split isFieldSep line)
    /\ c = mkCard (Js.trim p0) (Js.trim p1).
Proof.
  unfold lineCards, lineParts.
  destruct (Js.split isFieldSep line) as [|p0 [|p1 ps]]; simpl.
  - intros [].
  - intros [].
  - intros [<-|[]]. exists p0, p1. auto.
Qed.

(** X6: every card an import text gives is clean: its term and its
    definition are trimmed (trimming them again changes nothing) and
    contain no tab, comma, line feed or semicolon. *)
Theorem parsed_cards_are_clean (text : string) (c : Card) :
  In c (parseCards text) ->
  Js.trim (term c) = term c /\ Js.trim (definition c) = definition c
  /\ Js.any isFieldSep (term c) = false
  /\ Js.any isLineSep (term c) = false
  /\ Js.any isFieldSep (definition c) = false
  /\ Js.any isLineSep (definition c) = false.
Proof.
  unfold parseCards, importLines. intros H.
  apply in_flat_map in H. destruct H as (line & Hl & Hc).
  apply filter_In in Hl. destruct Hl as [Hl _].
  apply splitRuns_pieces in Hl.
  destruct (in_lineCards line c Hc) as (p0 & p1 & H0 & H1 & ->).
  cbn [term definition].
  repeat split; try apply trim_idem; apply any_trim;
    first [ eapply split_pieces; eassumption
          | eapply split_pieces_keep; eassumption ].
Qed.

Lemma parsed_cards_are_clean_witness :
  let c := mkCard "x" "y z" in
  In c (parseCards "  x , y z , w ; q")
  /\ Js.trim (term c) = term c /\ Js.trim (definition c) = definition c
  /\ Js.any isFieldSep (term c) = false
  /\ Js.any isLineSep (term c) = false
  /\ Js.any isFieldSep (definition c) = false
  /\ Js.any isLineSep (definition c) = false.
Proof.
  intros c.
  assert (H : In c (parseCards "  x , y z , w ; q")) by (left; reflexivity).
  split; [exact H|].
  exact (parsed_cards_are_clean "  x , y z , w ; q" c H).
Defined.

Lemma splitRuns_restart (sep : ascii -> bool) (b : string) :
  Js.splitRuns sep false b = Js.splitRuns sep true b
  \/ Js.splitRuns sep false b = EmptyString :: Js.splitRuns sep true b.
Proof.
  destruct b as [|c r]; simpl; [left; reflexivity|].
  destruct (sep c); [right|left]; reflexivity.
Qed.

Lemma splitRuns_join (sep : ascii -> bool) (d : ascii) (b : string) :
  sep d = true ->
  forall a i, exists l,
    Js.splitRuns sep i (a ++ String d b) = (l ++ Js.splitRuns sep true b)%list
    /\ (Js.splitRuns sep i a = l
        \/ Js.splitRuns sep i a = (l ++ [EmptyString])%list)
    /\ (i = false -> l <> []).
Proof.
  intros Hd. induction a as [|c r IH]; intros i.
  - simpl. rewrite Hd. destruct i.
    + exists []. simpl. repeat split; auto. discriminate.
    + exists [EmptyString]. simpl. repeat split; auto. discriminate.
  - cbn [String.append Js.splitRuns]. destruct (sep c) eqn:E.
    + destruct (IH true) as (l & H1 & H2 & _). destruct i.
      * exists l. repeat split; auto. discriminate.
      * exists (EmptyString :: l). rewrite H1. split; [reflexivity|].
        split; [|discriminate].
        destruct H2 as [-> | ->]; [left|right]; reflexivity.
    + destruct (IH false) as (l & H1 & H2 & H3).
      destruct l as [|p ps]; [exfalso; apply H3; reflexivity|].
      exists (String c p :: ps). rewrite H1. cbn [app].
      split; [reflexivity|]. split; [|discriminate].
      destruct H2 as [-> | ->]; [left|right]; reflexivity.
Qed.

Lemma importLines_join (a b : string) (d : ascii) :
  isLineSep d = true ->
  importLines (a ++ String d b) = (importLines a ++ importLines b)%list.
Proof.
  intros Hd. unfold importLines.
  destruct (splitRuns_join isLineSep d b Hd a false) as (l & H1 & H2 & _).
  rewrite H1, filter_app. f_equal.
  - destruct H2 as [-> | ->]; [reflexivity|].
    rewrite filter_app. simpl. rewrite app_nil_r. reflexivity.
  - destruct (splitRuns_restart isLineSep b) as [-> | ->]; reflexivity.
Qed.

(** X7: the import works line by line: the cards of two texts joined by a
    line feed or a semicolon are the cards of the first followed by the
    cards of the second. *)
Theorem parseCards_join (a b : string) (d : ascii) :
  isLineSep d = true ->
  parseCards (a ++ String d b) = (parseCards a ++ parseCards b)%list.
Proof.
  intros Hd. unfold parseCards.
  rewrite (importLines_join a b d Hd). apply flat_map_app.
Qed.

Lemma parseCards_join_witness :
  isLineSep ";" = true
  /\ parseCards ("A,1;;B" ++ String ";" " ;C,3,x")
     = (parseCards "A,1;;B" ++ parseCards " ;C,3,x")%list
  /\ parseCards ("A,1;;B" ++ String ";" " ;C,3,x") = [mkCard "A" "1"; mkCard "C" "3"].
Proof.
  assert (Hd : isLineSep ";" = true) by reflexivity.
  split; [exact Hd|]. split; [|reflexivity].
  exact (parseCards_join "A,1;;B" " ;C,3,x" ";" Hd).
Defined.

(** A text of white space only has no line that passes the filter. *)
Lemma parseCards_whiteSpaceOnly (text : string) :
  whiteSpaceOnly text -> parseCards text = [].
Proof.
  intros H. unfold parseCards, importLines.
  pose proof (splitRuns_whiteSpaceOnly text H false) as A.
  induction (Js.splitRuns isLineSep false text) as [|p ps IH];
    [reflexivity|].
  cbn [filter].
  assert (Hp : Js.trim p = "") by (apply trim_empty_iff, A; left; reflexivity).
  rewrite Hp. cbn [Js.truthy]. apply IH.
  intros q Hq. apply A. right. exact Hq.
Qed.

(** X8: a text of white space only (white space and line terminators, as
    [trim] takes them; the empty text included) is the text the import
    answers with its alert, and it gives no card: what the alert turns
    down is never a text with cards. *)
Theorem blank_text_has_no_cards (text : string) :
  (whiteSpaceOnly text <-> Js.trim text = "")
  /\ (whiteSpaceOnly text -> parseCards text = []).
Proof.
  split; [symmetry; apply trim_empty_iff|apply parseCards_whiteSpaceOnly].
Qed.

Lemma blank_text_has_no_cards_witness :
  whiteSpaceOnly mixedSpace
  /\ Js.trim mixedSpace = "" /\ parseCards mixedSpace = []
  /\ Js.trim (mixedSpace ++ "a,b" ++ mixedSpace) = "a,b".
Proof.
  assert (H : whiteSpaceOnly mixedSpace).
  { change (whiteSpaceOnly
              (Js.utf8 [32]%nat ++ Js.utf8 [194; 160]%nat ++ Js.utf8 [9]%nat
               ++ Js.utf8 [226; 128; 168]%nat ++ "")).
    repeat (apply wso_more; [vm_compute; tauto|]). apply wso_empty. }
  split; [exact H|].
  split; [exact (proj1 (proj1 (blank_text_has_no_cards mixedSpace)) H)|].
  split; [exact (proj2 (blank_text_has_no_cards mixedSpace) H)|].
  vm_compute. reflexivity.
Defined.

(** ** The session stays sound *)

Lemma mapi_from_indices {A} (f : Z -> A -> Row) (l : list A) :
  (forall i x, row_index (f i x) = i) ->
  forall i, Forall (fun j => i <= j < i + Z.of_nat (List.length l))
                   (map row_index (Js.mapi_from f i l)).
Proof.
  intros Hf. induction l as [|x l IH]; intros i; simpl; constructor.
  - rewrite Hf. lia.
  - eapply Forall_impl; [|apply (IH (i + 1))]. simpl. intros j Hj. lia.
Qed.

Lemma renderRows_inRange (b : bool) (cards : list Card) :
  rowsInRange (Some (renderRows b cards)) (List.length cards).
Proof.
  unfold rowsInRange, rowIndices, renderRows, Js.mapi.
  eapply Forall_impl; [|apply mapi_from_indices; reflexivity].
  simpl. intros j Hj. lia.
Qed.

Lemma listsKept_refl (w : World) : listsKept w w.
Proof. repeat split. Qed.

Lemma listsKept_trans (w1 w2 w3 : World) :
  listsKept w1 w2 -> listsKept w2 w3 -> listsKept w1 w3.
Proof.
  unfold listsKept. intros (A & B & C & D & E) (A' & B' & C' & D' & E').
  repeat split; congruence.
Qed.










Lemma classRemove_known (cl ks : list string) (k : string) :
  In k ks -> Js.classContains (Js.classRemove cl ks) k = false.
Proof.
  intros Hk. destruct (Js.classContains _ k) eqn:E; [|reflexivity].
  apply classContains_In in E. unfold Js.classRemove in E.
  apply filter_In in E. destruct E as [_ E]. apply negb_true_iff in E.
  assert (Js.classContains ks k = true) by (apply classContains_In; exact Hk).
  congruence.
Qed.

(** [setDesignVariant] leaves cards, index, stars and topics list alone,
    and whatever the panel and journey lists held before, afterwards the
    list of the variant that is on the body is rendered from the cards. *)
Lemma setDesignVariant_lists (v : string) (w : World) :
  flashcards (worldOf (setDesignVariant v w)) = flashcards w
  /\ currentIndex (state (worldOf (setDesignVariant v w))) = currentIndex (state w)
  /\ starredCards (state (worldOf (setDesignVariant v w))) = starredCards (state w)
  /\ rowIndices (topicsContainer (dom (worldOf (setDesignVariant v w))))
     = rowIndices (topicsContainer (dom w))
  /\ (bodyHas (worldOf (setDesignVariant v w)) "option-b"
      || bodyHas (worldOf (setDesignVariant v w)) "option-e" = true ->
      rowsInRange (panelTermsList (dom (worldOf (setDesignVariant v w))))
        (List.length (flashcards w)))
  /\ (bodyHas (worldOf (setDesignVariant v w)) "option-c" = true ->
      rowsInRange (journeyContainer (dom (worldOf (setDesignVariant v w))))
        (List.length (flashcards w))).
Proof.
  unfold setDesignVariant.
  destruct (negb (Js.truthy v)).
  { unfold rowsInRange, bodyHas.
    cbn -[Js.classContains Js.classRemove knownVariants].
    rewrite !classRemove_known by (simpl; tauto). cbn [orb].
    do 4 (split; [reflexivity|]). split; intros H; discriminate H. }
  destruct (Js.hasTokenSpace v).
  { unfold rowsInRange, bodyHas.
    cbn -[Js.classContains Js.classRemove knownVariants].
    rewrite !classRemove_known by (simpl; tauto). cbn [orb].
    do 4 (split; [reflexivity|]). split; intros H; discriminate H. }
  assert (Off : forall k, In k knownVariants -> k <> v ->
            Js.classContains
              (Js.classAdd (Js.classRemove (bodyClasses (dom w)) knownVariants) v) k
            = false).
  { intros k Hk Hne. apply classRemove_clears; assumption. }
  destruct (String.eqb_spec v "option-b") as [Eb|Nb];
    [|destruct (String.eqb_spec v "option-e") as [Ee|Ne];
      [|destruct (String.eqb_spec v "option-c") as [Ec|Nc];
        [|destruct (String.eqb_spec v "option-d") as [Ed|Nd]]]];
    cbn [orb worldOf];
    unfold rowsInRange, bodyHas, updatePanelTitle,
      updatePanelTermsList, updateJourneyView, initTableView in *;
    repeat break_match;
    cbn -[Js.classContains Js.classAdd Js.classRemove knownVariants renderRows];
    (do 4 (split; [reflexivity|]); split; intros H).
  all: try (rewrite ?Off in H
              by (first [simpl; tauto | intro X; rewrite X in *; congruence]);
            cbn [orb] in H; discriminate H).
  all: try (apply (renderRows_inRange true (flashcards w))).
  all: try (apply (renderRows_inRange false (flashcards w))).
  all: try (constructor; fail).
  all: match goal with
       | E : panelTermsList _ = None |- _ =>
           cbn in E; rewrite E; constructor
       | E : journeyContainer _ = None |- _ =>
           cbn in E; rewrite E; constructor
       end.
Qed.




(** A click ends at the listener of its target: the elements further up
    the path have none. *)
Lemma click_listener (t : ClickTarget) (w : World) :
  click t w = match listenerOf t w with
              | Some (_, h) => h w
              | None => Done w
              end.
Proof.
  unfold click.
  destruct t; cbn [bubblePath bubble];
    try reflexivity;
    destruct (listenerOf _ w) as [[stop h]|]; try reflexivity;
    destruct (h w), stop; reflexivity.
Qed.



















(** ** The card view follows the session *)


Lemma flipShown_kept (w w' : World) :
  flipShown w -> isFlipped (state w') = isFlipped (state w) ->
  flashcard (dom w') = flashcard (dom w) -> flipShown w'.
Proof. unfold flipShown. intros F A B. rewrite A, B. exact F. Qed.






Lemma setDesignVariant_view (v : string) (w : World) :
  viewKept w (worldOf (setDesignVariant v w)).
Proof.
  unfold viewKept, setDesignVariant, updatePanelTitle, updatePanelTermsList,
    updateJourneyView, initTableView.
  repeat break_match; cbn; repeat split.
Qed.

Lemma rerender_view (title now : string) (w2 : World) :
  viewKept w2
    (let w3 := updateTopicsList (flashcards w2) w2 in
     let w4 :=
       if Js.classContains (bodyClasses (dom w3)) "option-b"
          || Js.classContains (bodyClasses (dom w3)) "option-e"
       then updatePanelTermsList w3 else w3 in
     let w5 :=
       if Js.classContains (bodyClasses (dom w4)) "option-c"
       then updateJourneyView w4 else w4 in
     let w6 :=
       if Js.classContains (bodyClasses (dom w5)) "option-d"
       then initTableView w5 else w5 in
     closeImportModal (saveContent title (flashcards w6) now w6)).
Proof.
  unfold viewKept, updateTopicsList, updatePanelTermsList, updateJourneyView,
    initTableView.
  cbv zeta. repeat break_match; cbn; repeat split.
Qed.









(** ** A successful import *)

Lemma updateCard_shows (b : bool) (w w' : World) :
  cardFront (dom w) <> None -> cardBack (dom w) <> None ->
  updateCard b w = Done w' ->
  exists c, Js.index (flashcards w) (currentIndex (state w)) = Some c
    /\ cardFront (dom w') = Some (term c)
    /\ cardBack (dom w') = Some (definition c).
Proof.
  unfold updateCard. intros Hf Hb.
  destruct (cardFront (dom w)); [|congruence].
  destruct (cardBack (dom w)); [|congruence].
  destruct (Js.index _ _) as [c|]; [|discriminate].
  intros H. injection H as <-. exists c. split; [reflexivity|].
  unfold updateActiveTocItem, animateCardChange, updateStarButton.
  repeat break_match; cbn; auto.
Qed.

Lemma rerender_topics (title now : string) (w2 : World) (l : list Row) :
  topicsContainer
    (dom
       (let w3 := updateTopicsList (flashcards w2) w2 in
        let w4 :=
          if Js.classContains (bodyClasses (dom w3)) "option-b"
             || Js.classContains (bodyClasses (dom w3)) "option-e"
          then updatePanelTermsList w3 else w3 in
        let w5 :=
          if Js.classContains (bodyClasses (dom w4)) "option-c"
          then updateJourneyView w4 else w4 in
        let w6 :=
          if Js.classContains (bodyClasses (dom w5)) "option-d"
          then initTableView w5 else w5 in
        closeImportModal (saveContent title (flashcards w6) now w6))) = Some l ->
  l = renderRows true (flashcards w2).
Proof.
  unfold updateTopicsList, updatePanelTermsList, updateJourneyView,
    initTableView.
  cbv zeta. repeat break_match; cbn -[renderRows]; congruence.
Qed.

Lemma rerender_modal (title now : string) (w2 : World) :
  importModalOverlay
    (dom
       (let w3 := updateTopicsList (flashcards w2) w2 in
        let w4 :=
          if Js.classContains (bodyClasses (dom w3)) "option-b"
             || Js.classContains (bodyClasses (dom w3)) "option-e"
          then updatePanelTermsList w3 else w3 in
        let w5 :=
          if Js.classContains (bodyClasses (dom w4)) "option-c"
          then updateJourneyView w4 else w4 in
        let w6 :=
          if Js.classContains (bodyClasses (dom w5)) "option-d"
          then initTableView w5 else w5 in
        closeImportModal (saveContent title (flashcards w6) now w6)))
  <> Some true.
Proof.
  unfold updateTopicsList, updatePanelTermsList, updateJourneyView,
    initTableView.
  cbv zeta. repeat break_match; cbn;
    destruct (importModalOverlay (dom w2)); cbn; discriminate.
Qed.

(** X11: an import whose text gives at least one card gets through: the
    cards are replaced by the parsed cards, in the order of the text; the
    index is 0; the stars stay as they were (they are not moved to the new
    cards); the topics list holds the new cards; the import dialog is no
    longer active.  On a page with both faces of the card, the faces show
    the first new card, unflipped. *)
Theorem import_replaces_cards (now : string) (w : World) :
  parseCards (importText w) <> [] ->
  exists w', importFlashcards now w = Done w'
    /\ flashcards w' = parseCards (importText w)
    /\ currentIndex (state w') = 0
    /\ starredCards (state w') = starredCards (state w)
    /\ (forall l, topicsContainer (dom w') = Some l ->
          l = renderRows true (parseCards (importText w)))
    /\ importModalOverlay (dom w') <> Some true
    /\ (cardFront (dom w) <> None -> cardBack (dom w) <> None ->
        isFlipped (state w') = false
        /\ exists c rest, parseCards (importText w) = c :: rest
             /\ cardFront (dom w') = Some (term c)
             /\ cardBack (dom w') = Some (definition c)).
Proof.
  intros Hne.
  assert (Ht : Js.truthy (Js.trim (importText w)) = true).
  { destruct (Js.trim (importText w)) eqn:E; [|reflexivity].
    exfalso. apply Hne, parseCards_whiteSpaceOnly, trim_empty_iff, E. }
  assert (Hn : (0 <? List.length (parseCards (importText w)))%nat = true).
  { destruct (parseCards (importText w)); [congruence|reflexivity]. }
  unfold importFlashcards. rewrite Ht, Hn. cbn [negb].
  set (w1 := setCurrentIndex 0 (withFlashcards (parseCards (importText w)) w)).
  assert (Hin : inRange w1).
  { unfold inRange. simpl. apply Nat.ltb_lt in Hn. lia. }
  destruct (updateCard_done false w1 Hin) as [w2 E].
  destruct (updateCard_frame false w1) as [(F & _) (C & S & _)].
  rewrite E in *. cbn [andThen worldOf] in *.
  eexists. split; [reflexivity|].
  match goal with |- context [closeImportModal ?x] =>
    pose proof (rerender_view (importTitle w) now w2) as V;
    pose proof (rerender_topics (importTitle w) now w2) as T;
    pose proof (rerender_modal (importTitle w) now w2) as M
  end.
  cbv zeta in V, T, M.
  destruct V as (V1 & V2 & V3 & V4 & V5 & V6 & _).
  split; [rewrite V1, F; reflexivity|].
  split; [rewrite V2, C; reflexivity|].
  split; [rewrite V3, S; reflexivity|].
  split; [intros l Hl; rewrite (T l Hl), F; reflexivity|].
  split; [exact M|].
  intros Hf Hb. split.
  - rewrite V4. apply (updateCard_unflips false w1 w2); assumption.
  - destruct (updateCard_shows false w1 w2 Hf Hb E) as (c & I & CF & CB).
    cbn in I. destruct (parseCards (importText w)) as [|c0 rest] eqn:P;
      [congruence|].
    cbn in I. injection I as <-. exists c0, rest.
    rewrite V5, V6. auto.
Qed.

Lemma import_replaces_cards_witness :
  let w := toggleStar (typeImport "Greek" "alpha,1;beta,2" startWorld) in
  parseCards (importText w) <> []
  /\ exists w', importFlashcards "2024-01-01T00:00:00.000Z" w = Done w'
    /\ flashcards w' = [mkCard "alpha" "1"; mkCard "beta" "2"]
    /\ currentIndex (state w') = 0
    /\ starredCards (state w') = [0]
    /\ (forall l, topicsContainer (dom w') = Some l ->
          l = renderRows true (parseCards (importText w)))
    /\ importModalOverlay (dom w') <> Some true
    /\ (cardFront (dom w) <> None -> cardBack (dom w) <> None ->
        isFlipped (state w') = false
        /\ exists c rest, parseCards (importText w) = c :: rest
             /\ cardFront (dom w') = Some (term c)
             /\ cardBack (dom w') = Some (definition c)).
Proof.
  intros w.
  assert (Hne : parseCards (importText w) <> []) by discriminate.
  split; [exact Hne|].
  exact (import_replaces_cards "2024-01-01T00:00:00.000Z" w Hne).
Defined.

(** ** The topics list *)

Lemma nth_error_mapi_from {A B} (f : Z -> A -> B) (l : list A) :
  forall i k,
    nth_error (Js.mapi_from f i l) k
    = option_map (f (i + Z.of_nat k)) (nth_error l k).
Proof.
  induction l as [|x l IH]; intros i k; destruct k; simpl; try reflexivity.
  - rewrite Z.add_0_r. reflexivity.
  - rewrite IH. do 2 f_equal. lia.
Qed.

Lemma updateCard_topics (b : bool) (w : World) :
  topicsContainer (dom (worldOf (updateCard b w))) = topicsContainer (dom w).
Proof.
  unfold updateCard, updateActiveTocItem, animateCardChange, updateStarButton.
  repeat break_match; reflexivity.
Qed.

Lemma mapi_from_length {A B} (f : Z -> A -> B) (l : list A) :
  forall i, List.length (Js.mapi_from f i l) = List.length l.
Proof.
  induction l as [|x l IH]; intros i; simpl; [reflexivity|].
  rewrite IH. reflexivity.
Qed.

(** X12: the entries of the topics list stand for the cards, in order.
    After [updateTopicsList(flashcards)] the list has one entry for each
    card; entry [k] is built from card [k]: the term and the definition of
    card [k] are the texts put into its markup, and [k] is the index its
    listener closed over.  A click on it makes card [k] the current one
    and puts its term and its definition on the two faces, as text,
    unflipped; the list stays as rendered. *)
Theorem topic_entry_shows_its_card (w : World) (k : nat) (c : Card) :
  nth_error (flashcards w) k = Some c ->
  topicsContainer (dom w) <> None ->
  cardFront (dom w) <> None -> cardBack (dom w) <> None ->
  let w0 := updateTopicsList (flashcards w) w in
  exists l r w',
    topicsContainer (dom w0) = Some l
    /\ List.length l = List.length (flashcards w)
    /\ nth_error l k = Some r
    /\ row_index r = Z.of_nat k
    /\ row_term r = term c /\ row_definition r = definition c
    /\ click (OnTermItem k) w0 = Done w'
    /\ currentIndex (state w') = Z.of_nat k
    /\ isFlipped (state w') = false
    /\ cardFront (dom w') = Some (term c)
    /\ cardBack (dom w') = Some (definition c)
    /\ flashcards w' = flashcards w
    /\ topicsContainer (dom w') = Some l.
Proof.
  intros Hc Ht Hf Hb w0.
  assert (T0 : topicsContainer (dom w0) = Some (renderRows true (flashcards w))
               /\ flashcards w0 = flashcards w
               /\ cardFront (dom w0) = cardFront (dom w)
               /\ cardBack (dom w0) = cardBack (dom w)).
  { unfold w0, updateTopicsList.
    destruct (topicsContainer (dom w)); [|congruence]. repeat split. }
  destruct T0 as (T0 & F0 & CF0 & CB0).
  assert (R : nth_error (renderRows true (flashcards w)) k
              = Some (mkRow (Z.of_nat k) (term c) (definition c))).
  { unfold renderRows, Js.mapi.
    rewrite nth_error_mapi_from, Hc. reflexivity. }
  assert (Hk : 0 <= Z.of_nat k < Z.of_nat (List.length (flashcards w0))).
  { rewrite F0. assert (k < List.length (flashcards w))%nat.
    { apply nth_error_Some. congruence. }
    lia. }
  destruct (itemClick_step (Z.of_nat k) w0 Hk) as (w' & E & F & C).
  exists (renderRows true (flashcards w)),
         (mkRow (Z.of_nat k) (term c) (definition c)), w'.
  split; [exact T0|].
  split; [unfold renderRows, Js.mapi; apply mapi_from_length|].
  split; [exact R|].
  do 3 (split; [reflexivity|]).
  assert (Ec : click (OnTermItem k) w0 = Done w').
  { rewrite click_listener. cbn [listenerOf]. unfold rowAt. rewrite T0, R.
    exact E. }
  split; [exact Ec|]. split; [exact C|].
  unfold itemClick in E.
  assert (Hf0 : cardFront (dom (setCurrentIndex (Z.of_nat k) w0)) <> None)
    by (cbn; rewrite CF0; exact Hf).
  assert (Hb0 : cardBack (dom (setCurrentIndex (Z.of_nat k) w0)) <> None)
    by (cbn; rewrite CB0; exact Hb).
  split; [exact (updateCard_unflips true _ w' Hf0 Hb0 E)|].
  destruct (updateCard_shows true _ w' Hf0 Hb0 E) as (c' & I & CF & CB).
  assert (c' = c).
  { cbn in I. unfold Js.index in I.
    destruct (Z.of_nat k <? 0) eqn:Z0; [apply Z.ltb_lt in Z0; lia|].
    rewrite Nat2Z.id, F0, Hc in I. congruence. }
  subst c'. split; [exact CF|]. split; [exact CB|].
  split; [rewrite F; exact F0|].
  pose proof (updateCard_topics true (setCurrentIndex (Z.of_nat k) w0)) as T.
  rewrite E in T. cbn [worldOf] in T. rewrite T. exact T0.
Qed.

Lemma topic_entry_shows_its_card_witness :
  let w := loadPage samplePage emptyStorage in
  let c := mkCard "Typography"
    "The art and technique of arranging type to make written language legible and appealing" in
  nth_error (flashcards w) 2 = Some c
  /\ topicsContainer (dom w) <> None
  /\ cardFront (dom w) <> None /\ cardBack (dom w) <> None
  /\ exists l r w',
    topicsContainer (dom (updateTopicsList (flashcards w) w)) = Some l
    /\ List.length l = List.length (flashcards w)
    /\ nth_error l 2 = Some r
    /\ row_index r = 2
    /\ row_term r = term c /\ row_definition r = definition c
    /\ click (OnTermItem 2) (updateTopicsList (flashcards w) w) = Done w'
    /\ currentIndex (state w') = 2
    /\ isFlipped (state w') = false
    /\ cardFront (dom w') = Some (term c)
    /\ cardBack (dom w') = Some (definition c)
    /\ flashcards w' = flashcards w
    /\ topicsContainer (dom w') = Some l.
Proof.
  intros w c.
  assert (Hc : nth_error (flashcards w) 2 = Some c) by reflexivity.
  assert (Ht : topicsContainer (dom w) <> None) by discriminate.
  assert (Hf : cardFront (dom w) <> None) by discriminate.
  assert (Hb : cardBack (dom w) <> None) by discriminate.
  split; [exact Hc|]. split; [exact Ht|]. split; [exact Hf|].
  split; [exact Hb|].
  exact (topic_entry_shows_its_card w 2 c Hc Ht Hf Hb).
Defined.

(** ** Variants *)

Lemma setDesignVariant_result (v : string) (w : World) :
  v <> "" -> Js.hasTokenSpace v = false ->
  exists w', setDesignVariant v w = Done w'
    /\ designVariant (state w') = v
    /\ item_designVariant (localStorage w') = Some v
    /\ bodyClasses (dom w')
       = Js.classAdd (Js.classRemove (bodyClasses (dom w)) knownVariants) v
    /\ variantSelector (dom w')
       = option_map
           (map (fun b => mkVariantBtn (vb_variant b) (vb_variant b =? v)%string))
           (variantSelector (dom w))
    /\ flashcards w' = flashcards w.
Proof.
  intros Hne Hsp. unfold setDesignVariant.
  rewrite (truthy_nonempty _ Hne), Hsp. cbn [negb].
  unfold updatePanelTitle, updatePanelTermsList, updateJourneyView, initTableView.
  repeat break_match; eexists; (split; [reflexivity|]);
    cbn -[Js.classAdd Js.classRemove knownVariants]; auto 10.
Qed.

Lemma panel_rendered (w : World) (l : list Row) :
  panelTermsList (dom (updatePanelTitle (updatePanelTermsList w))) = Some l ->
  l = renderRows true (flashcards w).
Proof.
  unfold updatePanelTitle, updatePanelTermsList.
  destruct (panelTermsList (dom w)) eqn:E; cbn -[renderRows]; rewrite ?E;
    congruence.
Qed.

Lemma journey_rendered (w : World) (l : list Row) :
  journeyContainer (dom (updateJourneyView w)) = Some l ->
  l = renderRows false (flashcards w).
Proof.
  unfold updateJourneyView.
  destruct (journeyContainer (dom w)) eqn:E; cbn -[renderRows]; rewrite ?E;
    congruence.
Qed.

Lemma table_rendered (w : World) (l : list Row) :
  tableTermsList (dom (initTableView w)) = Some l ->
  l = renderRows true (flashcards w).
Proof.
  unfold initTableView.
  destruct (tableTermsList (dom w)) eqn:E; cbn -[renderRows]; rewrite ?E;
    congruence.
Qed.

Lemma setDesignVariant_renders (v : string) (w : World) (l : list Row) :
  (((v = "option-b" \/ v = "option-e") /\
    panelTermsList (dom (worldOf (setDesignVariant v w))) = Some l) ->
   l = renderRows true (flashcards w))
  /\ ((v = "option-c" /\
       journeyContainer (dom (worldOf (setDesignVariant v w))) = Some l) ->
      l = renderRows false (flashcards w))
  /\ ((v = "option-d" /\
       tableTermsList (dom (worldOf (setDesignVariant v w))) = Some l) ->
      l = renderRows true (flashcards w)).
Proof.
  repeat split.
  - intros [[-> | ->] H]; apply panel_rendered in H; exact H.
  - intros [-> H]. apply journey_rendered in H. exact H.
  - intros [-> H]. apply table_rendered in H. exact H.
Qed.

Lemma known_is_token (v : string) :
  In v knownVariants -> v <> "" /\ Js.hasTokenSpace v = false.
Proof.
  simpl. intros [<-|[<-|[<-|[<-|[<-|[]]]]]]; split;
    (discriminate || reflexivity).
Qed.

(** X13: the variants exclude each other.  After [setDesignVariant] with
    one of the five variants, the body carries the class of that variant
    and of no other of the five, the buttons of the selector are active
    exactly when they stand for it, the variant is in the session and in
    the storage, and the list of the variant (panel list for [option-b] and
    [option-e], journey list for [option-c], table for [option-d]) holds
    the cards, in order. *)
Theorem setDesignVariant_known (v : string) (w : World) :
  In v knownVariants ->
  exists w', setDesignVariant v w = Done w'
    /\ designVariant (state w') = v
    /\ item_designVariant (localStorage w') = Some v
    /\ bodyHas w' v = true
    /\ (forall k, In k knownVariants -> k <> v -> bodyHas w' k = false)
    /\ (forall btns b, variantSelector (dom w') = Some btns -> In b btns ->
          vb_active b = (vb_variant b =? v)%string)
    /\ (v = "option-b" \/ v = "option-e" ->
        forall l, panelTermsList (dom w') = Some l ->
                  l = renderRows true (flashcards w))
    /\ (v = "option-c" ->
        forall l, journeyContainer (dom w') = Some l ->
                  l = renderRows false (flashcards w))
    /\ (v = "option-d" ->
        forall l, tableTermsList (dom w') = Some l ->
                  l = renderRows true (flashcards w)).
Proof.
  intros Hk. destruct (known_is_token v Hk) as [Hne Hsp].
  destruct (setDesignVariant_result v w Hne Hsp) as (w' & E & D & S & B & V & F).
  exists w'. split; [exact E|]. split; [exact D|]. split; [exact S|].
  unfold bodyHas. rewrite B.
  split; [apply classContains_classAdd|].
  split; [intros k Hin Hd; apply classRemove_clears; assumption|].
  split.
  { intros btns b Hv Hb. rewrite V in Hv.
    destruct (variantSelector (dom w)) as [bs|]; [|discriminate Hv].
    cbn in Hv. injection Hv as <-.
    apply in_map_iff in Hb. destruct Hb as (b0 & <- & _). reflexivity. }
  pose proof (fun l => setDesignVariant_renders v w l) as R.
  rewrite E in R. cbn [worldOf] in R.
  split; [intros Hv l Hl; apply (proj1 (R l)); auto|].
  split; [intros Hv l Hl; apply (proj1 (proj2 (R l))); auto|].
  intros Hv l Hl; apply (proj2 (proj2 (R l))); auto.
Qed.

Lemma setDesignVariant_known_witness :
  In "option-e" knownVariants
  /\ exists w', setDesignVariant "option-e" panelWorld = Done w'
    /\ designVariant (state w') = "option-e"
    /\ item_designVariant (localStorage w') = Some "option-e"
    /\ bodyHas w' "option-e" = true
    /\ (forall k, In k knownVariants -> k <> "option-e" -> bodyHas w' k = false)
    /\ (forall btns b, variantSelector (dom w') = Some btns -> In b btns ->
          vb_active b = (vb_variant b =? "option-e")%string)
    /\ ("option-e" = "option-b" \/ "option-e" = "option-e" ->
        forall l, panelTermsList (dom w') = Some l ->
                  l = renderRows true (flashcards panelWorld))
    /\ ("option-e" = "option-c" ->
        forall l, journeyContainer (dom w') = Some l ->
                  l = renderRows false (flashcards panelWorld))
    /\ ("option-e" = "option-d" ->
        forall l, tableTermsList (dom w') = Some l ->
                  l = renderRows true (flashcards panelWorld)).
Proof.
  assert (H : In "option-e" knownVariants) by (simpl; tauto).
  split; [exact H|]. exact (setDesignVariant_known "option-e" panelWorld H).
Defined.

(** X14: a value that cannot be a class name, the empty text or a text
    with whitespace, makes [setDesignVariant] throw after it took the five
    variant classes off the body: no variant class is left, and the
    session, the storage and the effects are as before. *)
Theorem setDesignVariant_bad_token (v : string) (w : World) :
  v = "" \/ Js.hasTokenSpace v = true ->
  exists e w', setDesignVariant v w = Threw e w'
    /\ (e = SyntaxError \/ e = InvalidCharacterError)
    /\ (forall k, In k knownVariants -> bodyHas w' k = false)
    /\ state w' = state w /\ localStorage w' = localStorage w
    /\ effects w' = effects w /\ flashcards w' = flashcards w.
Proof.
  intros H. unfold setDesignVariant.
  assert (C : negb (Js.truthy v) = true \/
              (negb (Js.truthy v) = false /\ Js.hasTokenSpace v = true)).
  { destruct H as [-> | H]; [left; reflexivity|].
    destruct (negb (Js.truthy v)); [left; reflexivity|right; auto]. }
  destruct C as [-> | [-> ->]]; do 2 eexists; (split; [reflexivity|]);
    unfold bodyHas; cbn -[Js.classContains Js.classRemove knownVariants];
    (split; [auto|]);
    (split; [intros k Hk; apply classRemove_known, Hk|]); auto.
Qed.

Lemma setDesignVariant_bad_token_witness :
  ("two words" = "" \/ Js.hasTokenSpace "two words" = true)
  /\ exists e w', setDesignVariant "two words" startWorld = Threw e w'
    /\ (e = SyntaxError \/ e = InvalidCharacterError)
    /\ (forall k, In k knownVariants -> bodyHas w' k = false)
    /\ state w' = state startWorld /\ localStorage w' = localStorage startWorld
    /\ effects w' = effects startWorld /\ flashcards w' = flashcards startWorld.
Proof.
  assert (H : "two words" = "" \/ Js.hasTokenSpace "two words" = true)
    by (right; reflexivity).
  split; [exact H|]. exact (setDesignVariant_bad_token "two words" startWorld H).
Defined.

(** ** Who writes what *)

Lemma nav_storage (b : bool) (i : Z) (w : World) :
  localStorage (worldOf (updateCard b (setCurrentIndex i w))) = localStorage w.
Proof.
  destruct (updateCard_frame b (setCurrentIndex i w)) as [(_ & L & _) _].
  exact L.
Qed.

Lemma prevCard_storage (w : World) :
  localStorage (worldOf (prevCard w)) = localStorage w.
Proof. unfold prevCard. destruct (_ >? _); apply nav_storage. Qed.

Lemma nextCard_storage (w : World) :
  localStorage (worldOf (nextCard w)) = localStorage w.
Proof. unfold nextCard. destruct (_ <? _); apply nav_storage. Qed.

Lemma importFlashcards_items (now : string) (w : World) :
  sameVariantItem w (worldOf (importFlashcards now w))
  /\ sameSessionItem w (worldOf (importFlashcards now w)).
Proof.
  unfold sameVariantItem, sameSessionItem.
  destruct (Js.truthy (Js.trim (importText w))) eqn:Ht;
    [destruct (0 <? List.length (parseCards (importText w)))%nat eqn:Hn|].
  - destruct (importFlashcards_accepted now w Ht Hn) as (w' & E & _ & _ & _ & L).
    rewrite E. cbn [worldOf]. rewrite L. split; reflexivity.
  - unfold importFlashcards. rewrite Ht, Hn. split; reflexivity.
  - unfold importFlashcards. rewrite Ht. split; reflexivity.
Qed.

Lemma setDesignVariant_items (v : string) (w : World) :
  sameSessionItem w (worldOf (setDesignVariant v w))
  /\ sameContentItem w (worldOf (setDesignVariant v w)).
Proof.
  unfold sameSessionItem, sameContentItem, setDesignVariant, updatePanelTitle,
    updatePanelTermsList, updateJourneyView, initTableView.
  repeat break_match; split; reflexivity.
Qed.

Lemma toggleStar_items (w : World) :
  sameVariantItem w (toggleStar w) /\ sameContentItem w (toggleStar w).
Proof.
  unfold sameVariantItem, sameContentItem, toggleStar, saveState,
    updateStarButton.
  repeat break_match; split; reflexivity.
Qed.

Lemma handleKeydown_storage (ev : KeyEvent) (w : World) :
  localStorage (worldOf (handleKeydown ev w)) = localStorage w.
Proof.
  unfold handleKeydown.
  destruct (_ || _); [reflexivity|].
  destruct (_ =? _)%string; [apply prevCard_storage|].
  destruct (_ =? _)%string; [apply nextCard_storage|].
  destruct (_ || _); reflexivity.
Qed.

Lemma escapeListener_storage (ev : KeyEvent) (w : World) :
  localStorage (escapeListener ev w) = localStorage w.
Proof.
  unfold escapeListener, closeDebugModal, closeImportModal.
  repeat break_match; reflexivity.
Qed.

(** X15: every item of the storage has one writer.  Whatever the user
    does, the variant under ['designVariant'] changes only by a click on a
    variant button, the session under ['flashcardState'] only by a click on
    the star button, and the content under ['flashcardContent'] only by a
    click on the import button; every other action leaves the item as it
    is. *)
Theorem storage_items_have_one_writer (a : Action) (w : World) :
  ((forall k, a <> Click (OnVariantBtn k)) ->
   sameVariantItem w (worldOf (step a w)))
  /\ (a <> Click OnStarBtn -> sameSessionItem w (worldOf (step a w)))
  /\ ((forall now, a <> Click (OnImportSubmit now)) ->
      sameContentItem w (worldOf (step a w))).
Proof.
  unfold sameVariantItem, sameSessionItem, sameContentItem.
  destruct a as [t|ev|title text]; cbn [step].
  - rewrite click_listener.
    destruct t; cbn [listenerOf attachedListener];
      try (repeat split; reflexivity);
      try (destruct (rowAt _ k); cbn [option_map];
           [unfold itemClick; rewrite nav_storage|]; repeat split; reflexivity);
      (destruct (listenersAttached (dom w)); [|repeat split; reflexivity]).
    + rewrite prevCard_storage. repeat split; reflexivity.
    + rewrite nextCard_storage. repeat split; reflexivity.
    + destruct (flashcard (dom w)); repeat split; reflexivity.
    + destruct (starBtn (dom w)); cbn [option_map worldOf];
        [|repeat split; reflexivity].
      destruct (toggleStar_items w) as [V C].
      split; [intros _; exact V|]. split; [congruence|intros _; exact C].
    + repeat split; reflexivity.
    + repeat split; reflexivity.
    + repeat split; reflexivity.
    + repeat split; reflexivity.
    + repeat split; reflexivity.
    + destruct (importFlashcards_items now w) as [V S].
      split; [intros _; exact V|]. split; [intros _; exact S|].
      intros H. exfalso. exact (H now eq_refl).
    + destruct (variantSelector (dom w)) as [btns|]; [|repeat split; reflexivity].
      destruct (nth_error btns k) as [b|]; cbn [option_map];
        [|repeat split; reflexivity].
      destruct (setDesignVariant_items (vb_variant b) w) as [S C].
      split; [intros H; exfalso; exact (H k eq_refl)|].
      split; intros _; assumption.
  - unfold keydown. destruct (listenersAttached (dom w));
      [|repeat split; reflexivity].
    pose proof (handleKeydown_storage ev w) as H.
    destruct (handleKeydown ev w) as [w1|e w1]; cbn [worldOf] in *;
      rewrite escapeListener_storage, H; repeat split; reflexivity.
  - repeat split; reflexivity.
Qed.

Lemma storage_items_have_one_writer_witness :
  let a := Click OnStarBtn in
  (forall k, a <> Click (OnVariantBtn k))
  /\ (forall now, a <> Click (OnImportSubmit now))
  /\ sameVariantItem startWorld (worldOf (step a startWorld))
  /\ sameContentItem startWorld (worldOf (step a startWorld))
  /\ item_flashcardState (localStorage (worldOf (step a startWorld)))
     = Some (SavedState (Some 0) (Some [0])).
Proof.
  intros a.
  assert (Hv : forall k, a <> Click (OnVariantBtn k)) by discriminate.
  assert (Hi : forall now, a <> Click (OnImportSubmit now)) by discriminate.
  split; [exact Hv|]. split; [exact Hi|].
  destruct (storage_items_have_one_writer a startWorld) as (V & _ & C).
  split; [exact (V Hv)|]. split; [exact (C Hi)|reflexivity].
Defined.

(** ** A start without a usable session *)

(** X16: without a usable session snapshot (none stored, or stored text
    that [JSON.parse] rejects) [init] gets through, whatever the page: the
    session starts on card 0 of the sample cards with no star, and the
    listeners are attached.  (As before, the stored variant must not hold
    whitespace.) *)
Theorem startup_without_session (page : Dom) (st : Storage) :
  item_flashcardState st = None \/ item_flashcardState st = Some Unparsable ->
  (forall v, item_designVariant st = Some v -> Js.hasTokenSpace v = false) ->
  exists w, startup page st = Done w
    /\ currentIndex (state w) = 0
    /\ starredCards (state w) = []
    /\ isFlipped (state w) = false
    /\ flashcards w = sampleFlashcards
    /\ listenersAttached (dom w) = true.
Proof.
  intros Hs Hv.
  destruct (loadDesignVariant_done page st Hv) as (w1 & E1 & _ & _ & S1).
  assert (K : flashcards w1 = sampleFlashcards
              /\ currentIndex (state w1) = 0
              /\ starredCards (state w1) = []
              /\ isFlipped (state w1) = false).
  { revert E1. unfold loadDesignVariant.
    match goal with |- context [setDesignVariant ?v ?w0] =>
      destruct (setDesignVariant_lists v w0) as (F & C & S & _);
      destruct (setDesignVariant_view v w0) as (_ & _ & _ & IF & _)
    end.
    intros E. rewrite E in *. cbn [worldOf] in *. auto. }
  destruct K as (F1 & C1 & St1 & IF1).
  assert (L : flashcards (loadSavedState w1) = sampleFlashcards
              /\ currentIndex (state (loadSavedState w1)) = 0
              /\ starredCards (state (loadSavedState w1)) = []
              /\ isFlipped (state (loadSavedState w1)) = false).
  { unfold loadSavedState. rewrite S1.
    destruct Hs as [-> | ->]; cbn; auto. }
  destruct L as (F2 & C2 & St2 & IF2).
  assert (Hin : inRange (loadSavedState w1)).
  { unfold inRange. rewrite F2, C2. simpl. lia. }
  destruct (updateCard_done false _ Hin) as [w2 E2].
  destruct (updateCard_frame false (loadSavedState w1)) as [(F3 & _) (C3 & St3 & _)].
  assert (IF3 : isFlipped (state w2) = false).
  { revert E2. unfold updateCard, updateActiveTocItem, animateCardChange,
      updateStarButton.
    repeat break_match; intros [= <-]; cbn; congruence. }
  rewrite E2 in *. cbn [worldOf] in *.
  unfold startup, init. rewrite E1. cbn [andThen]. rewrite E2. cbn [andThen].
  eexists. split; [reflexivity|].
  unfold updateTopicsList, attachEventListeners.
  destruct (topicsContainer _); cbn; rewrite ?C3, ?St3, ?F3; auto 10.
Qed.

Lemma startup_without_session_witness :
  let st := mkStorage (Some "option-c") (Some Unparsable) None in
  (item_flashcardState st = None \/ item_flashcardState st = Some Unparsable)
  /\ (forall v, item_designVariant st = Some v -> Js.hasTokenSpace v = false)
  /\ exists w, startup samplePage st = Done w
    /\ currentIndex (state w) = 0
    /\ starredCards (state w) = []
    /\ isFlipped (state w) = false
    /\ flashcards w = sampleFlashcards
    /\ listenersAttached (dom w) = true.
Proof.
  intros st.
  assert (Hs : item_flashcardState st = None
               \/ item_flashcardState st = Some Unparsable) by (right; reflexivity).
  assert (Hv : forall v, item_designVariant st = Some v ->
                         Js.hasTokenSpace v = false).
  { intros v H. injection H as <-. reflexivity. }
  split; [exact Hs|]. split; [exact Hv|].
  exact (startup_without_session samplePage st Hs Hv).
Defined.

(** ** The stored index, in general *)



